(** * Kerala news scraper: extraction, translation gate and date cascade

    A shallow embedding of [scraper.py] and [api.py].

    Python [str] values are sequences of Unicode code points, so text is
    modelled as [list N].  The helpers are pure functions; the scraper
    itself talks to the network and to third-party libraries, which is
    modelled by a small state-and-exception monad over an abstract
    environment. *)

From Stdlib Require Import NArith List Lia Bool Ascii String.
From stdpp Require Import base option list strings gmap.
From Equations Require Import Equations.

Set Default Proof Using "Type".
Local Open Scope N_scope.

(** ** Python strings *)

Abbreviation char := N.
Abbreviation str := (list N).

(** UTF-8 decoding of a literal, so that the constants below can be written
    the way the source file spells them. *)
Fixpoint utf8_go (pending : nat) (acc : N) (bs : list N) : str :=
  match bs with
  | [] => []
  | b :: bs' =>
      match pending with
      | O =>
          if b <? 0x80 then b :: utf8_go O 0 bs'
          else if b <? 0xE0 then utf8_go 1 (N.land b 0x1F) bs'
          else if b <? 0xF0 then utf8_go 2 (N.land b 0x0F) bs'
          else utf8_go 3 (N.land b 0x07) bs'
      | S O => (acc * 64 + N.land b 0x3F) :: utf8_go O 0 bs'
      | S p => utf8_go p (acc * 64 + N.land b 0x3F) bs'
      end
  end.

Definition utf8 (s : string) : str :=
  utf8_go O 0 (map (fun a => N_of_ascii a) (String.list_ascii_of_string s)).

Definition truthy (s : str) : bool :=
  match s with [] => false | _ :: _ => true end.

(** [s.startswith(p)] *)
Fixpoint is_prefix (p s : str) : bool :=
  match p, s with
  | [], _ => true
  | a :: p', b :: s' => (a =? b) && is_prefix p' s'
  | _ :: _, [] => false
  end.

(** [sub in s] *)
Fixpoint str_in (sub s : str) : bool :=
  is_prefix sub s ||
  match s with
  | [] => false
  | _ :: s' => str_in sub s'
  end.

(** [s.replace(old, new)]: the non-overlapping occurrences of [old], found
    from the left, are replaced; [skip] counts the characters of an
    occurrence that are still to be dropped. *)
Fixpoint replace_go (old new : str) (skip : nat) (s : str) : str :=
  match s with
  | [] => []
  | c :: s' =>
      match skip with
      | S k => replace_go old new k s'
      | O =>
          if is_prefix old s
          then new ++ replace_go old new (Nat.pred (length old)) s'
          else c :: replace_go old new O s'
      end
  end.

Definition str_replace (old new s : str) : str :=
  match old with
  | [] => new ++ flat_map (fun c => c :: new) s
  | _ :: _ => replace_go old new O s
  end.

(** [str.isspace] on one code point: the characters [str.strip()] removes
    and the regular expression class [\s] accepts. *)
Definition is_space (c : char) : bool :=
  ((0x09 <=? c) && (c <=? 0x0D)) || ((0x1C <=? c) && (c <=? 0x20)) ||
  (c =? 0x85) || (c =? 0xA0) || (c =? 0x1680) ||
  ((0x2000 <=? c) && (c <=? 0x200A)) || (c =? 0x2028) || (c =? 0x2029) ||
  (c =? 0x202F) || (c =? 0x205F) || (c =? 0x3000).

Fixpoint drop_while (f : char -> bool) (s : str) : str :=
  match s with
  | [] => []
  | c :: s' => if f c then drop_while f s' else s
  end.

Definition str_lstrip (s : str) : str := drop_while is_space s.
Definition str_rstrip (s : str) : str := rev (drop_while is_space (rev s)).
Definition str_strip (s : str) : str := str_rstrip (str_lstrip s).

(** [sep.join(l)] *)
Fixpoint str_join (sep : str) (l : list str) : str :=
  match l with
  | [] => []
  | [x] => x
  | x :: l' => x ++ sep ++ str_join sep l'
  end.

(** The Basic Latin part of the case and digit tables. *)
Definition ascii_lower (c : char) : char :=
  if (0x41 <=? c) && (c <=? 0x5A) then c + 0x20 else c.

Definition ascii_upper (c : char) : char :=
  if (0x61 <=? c) && (c <=? 0x7A) then c - 0x20 else c.

Definition ascii_decimal (c : char) : option N :=
  if (0x30 <=? c) && (c <=? 0x39) then Some (c - 0x30) else None.

Definition is_ascii (c : char) : bool := c <? 0x80.

(** Decimal rendering, most significant digit first, on [width] digits. *)
Fixpoint decimal_digits (width : nat) (n : N) : str :=
  match width with
  | O => []
  | S w => decimal_digits w (n / 10) ++ [0x30 + n mod 10]
  end.

(** ** The platform: Unicode tables and the C library

    What the interpreter takes from its Unicode database and from the C
    library depends on their versions; outside Basic Latin it is left
    abstract. *)
Class Platform := {
  (** decimal value of a code point of category Nd, beyond Basic Latin *)
  unicode_decimal : char -> option N;
  (** [str.lower] and [str.capitalize] on text that is not all Basic Latin *)
  unicode_lower : str -> str;
  unicode_capitalize : str -> str;
  (** [%Y] of [strftime] for a year below 1000 *)
  libc_year : N -> str
}.

(** ** The module constants *)

Definition MEDIA_MAP : gmap str str :=
  list_to_map [
    (utf8 "manoramaonline", utf8 "Malayala Manorama");
    (utf8 "onmanorama", utf8 "Onmanorama");
    (utf8 "mathrubhumi", utf8 "Mathrubhumi News");
    (utf8 "asianetnews", utf8 "Asianet News");
    (utf8 "keralakaumudi", utf8 "Kerala Kaumudi");
    (utf8 "janmabhumi", utf8 "Janmabhumi");
    (utf8 "deshabhimani", utf8 "Deshabhimani");
    (utf8 "news18", utf8 "News18 Malayalam");
    (utf8 "thehindu", utf8 "The Hindu");
    (utf8 "timesofindia", utf8 "Times of India");
    (utf8 "indiatoday", utf8 "India Today")
  ].

(** A dict is iterated in insertion order, so the month table is a list. *)
Definition MALAYALAM_MONTHS : list (str * str) := [
  (utf8 "ജനുവരി", utf8 "January"); (utf8 "ഫെബ്രുവരി", utf8 "February");
  (utf8 "മാർച്ച്", utf8 "March");
  (utf8 "ഏപ്രിൽ", utf8 "April"); (utf8 "മേയ്", utf8 "May");
  (utf8 "ജൂൺ", utf8 "June");
  (utf8 "ജൂലൈ", utf8 "July"); (utf8 "ആഗസ്റ്റ്", utf8 "August");
  (utf8 "സെപ്റ്റംബർ", utf8 "September");
  (utf8 "ഒക്ടോബർ", utf8 "October"); (utf8 "നവംബർ", utf8 "November");
  (utf8 "ഡിസംബർ", utf8 "December");
  (utf8 "ഡിസം", utf8 "December")
].

(** ** Regular expressions used by the scraper

    The patterns of the source are sequences of character classes; a
    pattern is modelled as the list of its classes. *)

Definition chr (a : ascii) : char := N_of_ascii a.

Definition is_chr (a : ascii) (c : char) : bool := c =? chr a.

(** [\u0D00-\u0D7F] *)
Definition is_malayalam (c : char) : bool := (0x0D00 <=? c) && (c <=? 0x0D7F).

(** [^ \u0D00-\u0D7F] *)
Definition not_space_malayalam (c : char) : bool :=
  negb ((c =? chr " ") || is_malayalam c).

(** [/-] *)
Definition is_sep (c : char) : bool := is_chr "/" c || is_chr "-" c.

(** The text a pattern matches at the start of [s], if it matches there. *)
Fixpoint match_here (pat : list (char -> bool)) (s : str) : option str :=
  match pat, s with
  | [], _ => Some []
  | f :: pat', c :: s' =>
      if f c then
        match match_here pat' s' with
        | Some m => Some (c :: m)
        | None => None
        end
      else None
  | _ :: _, [] => None
  end.

(** [re.search]: the match at the leftmost position that has one. *)
Fixpoint re_search (pat : list (char -> bool)) (s : str) : option str :=
  match match_here pat s with
  | Some m => Some m
  | None =>
      match s with
      | [] => None
      | _ :: s' => re_search pat s'
      end
  end.

(** [re.sub(cls+, repl, s)] for a one-class pattern under [+]: from the
    left, a character of the class starts a match that runs as far as the
    class goes and is replaced by [repl]. *)
Equations re_sub_plus (cls : char -> bool) (repl : str) (s : str) : str
  by wf (length s) lt :=
re_sub_plus cls repl [] := [];
re_sub_plus cls repl (c :: s') with cls c => {
  | true => repl ++ re_sub_plus cls repl (drop_while cls s');
  | false => c :: re_sub_plus cls repl s' }.
Next Obligation.
  clear. induction s' as [|x r IH]; cbn; [lia|]. destruct (cls x); cbn; lia.
Qed.

(** ** Text functions that consult the platform *)

Section WithPlatform.
Context {P : Platform}.

(** The decimal value of a code point of category Nd: the class [\d], and
    the digits [int] accepts. *)
Definition decimal_value (c : char) : option N :=
  if is_ascii c then ascii_decimal c else unicode_decimal c.

Definition is_digit (c : char) : bool :=
  match decimal_value c with Some _ => true | None => false end.

Definition str_lower (s : str) : str :=
  if forallb is_ascii s then map ascii_lower s else unicode_lower s.

Definition str_capitalize (s : str) : str :=
  if forallb is_ascii s then
    match s with
    | [] => []
    | c :: s' => ascii_upper c :: map ascii_lower s'
    end
  else unicode_capitalize s.

(** /(\d{4})[/-](\d{2})[/-](\d{2}) *)
Definition url_date_pattern : list (char -> bool) :=
  [is_chr "/"] ++ repeat is_digit 4 ++ [is_sep] ++ repeat is_digit 2 ++
  [is_sep] ++ repeat is_digit 2.

(** *** [datetime.strptime] and [strftime]

    Dates carry the three fields the scraper's formats read and write. *)
Record date := Date { year : N; month : N; day : N }.

Inductive directive :=
| D_d            (* %d *)
| D_B            (* %B *)
| D_Y            (* %Y *)
| D_space        (* a run of whitespace in the format: \s+ *)
| D_lit (c : char).

(** The format is read from the left; a run of whitespace becomes one
    [\s+], a percent sign takes the next character as its directive, and a
    directive the scraper never uses is refused, as is a lone percent sign. *)
Fixpoint format_directives (after_space : bool) (fmt : str) : option (list directive) :=
  match fmt with
  | [] => Some []
  | c :: fmt' =>
      if is_chr "%" c then
        match fmt' with
        | [] => None
        | x :: fmt'' =>
            let dir :=
              if is_chr "d" x then Some D_d
              else if is_chr "B" x then Some D_B
              else if is_chr "Y" x then Some D_Y
              else None in
            match dir, format_directives false fmt'' with
            | Some d, Some ds => Some (d :: ds)
            | _, _ => None
            end
        end
      else if is_space c then
        match format_directives true fmt' with
        | Some ds => Some (if after_space then ds else D_space :: ds)
        | None => None
        end
      else
        match format_directives false fmt' with
        | Some ds => Some (D_lit c :: ds)
        | None => None
        end
  end.

Definition is_1_9 (c : char) : bool := (0x31 <=? c) && (c <=? 0x39).

(** %d is 3[0-1]|[1-2]\d|0[1-9]|[1-9]| [1-9], tried in this order; the
    value is what [int] makes of the matched text. *)
Definition match_d (s : str) : option (N * str) :=
  match s with
  | [] => None
  | c1 :: r =>
      let two :=
        match r with
        | [] => None
        | c2 :: r2 =>
            if is_chr "3" c1 && (is_chr "0" c2 || is_chr "1" c2)
            then Some (30 + (c2 - 0x30), r2)
            else if is_chr "1" c1 || is_chr "2" c1 then
              match decimal_value c2 with
              | Some v => Some ((c1 - 0x30) * 10 + v, r2)
              | None => None
              end
            else if is_chr "0" c1 && is_1_9 c2 then Some (c2 - 0x30, r2)
            else None
        end in
      match two with
      | Some res => Some res
      | None =>
          if is_1_9 c1 then Some (c1 - 0x30, r)
          else if is_chr " " c1 then
            match r with
            | c2 :: r2 => if is_1_9 c2 then Some (c2 - 0x30, r2) else None
            | [] => None
            end
          else None
      end
  end.

(** The month names of the C locale, in lower case as [_strptime] keeps
    them. *)
Definition month_names : list str := [
  utf8 "january"; utf8 "february"; utf8 "march"; utf8 "april"; utf8 "may";
  utf8 "june"; utf8 "july"; utf8 "august"; utf8 "september"; utf8 "october";
  utf8 "november"; utf8 "december"
].

(** A name matches without regard to case; the month is then looked up
    by the lower-cased text, which succeeds for Basic Latin letters only. *)
Fixpoint is_prefix_nocase (name s : str) : bool :=
  match name, s with
  | [], _ => true
  | a :: name', b :: s' => (a =? ascii_lower b) && is_prefix_nocase name' s'
  | _ :: _, [] => false
  end.

Fixpoint match_B_from (names : list str) (index : N) (s : str) : option (N * str) :=
  match names with
  | [] => None
  | name :: names' =>
      if is_prefix_nocase name s then Some (index, skipn (length name) s)
      else match_B_from names' (index + 1) s
  end.

Definition match_B (s : str) : option (N * str) := match_B_from month_names 1 s.

(** %Y is \d\d\d\d *)
Definition match_Y (s : str) : option (N * str) :=
  match s with
  | c1 :: c2 :: c3 :: c4 :: r =>
      match decimal_value c1, decimal_value c2, decimal_value c3, decimal_value c4 with
      | Some v1, Some v2, Some v3, Some v4 =>
          Some (v1 * 1000 + v2 * 100 + v3 * 10 + v4, r)
      | _, _, _, _ => None
      end
  | _ => None
  end.

(** Matching a format against the start of the data; the fields found so
    far are threaded through, and what is left of the data is returned.
    Each directive takes the first of its alternatives that matches where
    it stands, and whitespace takes all there is.  For the formats of the
    scraper the regular expression has no other way to succeed: what
    follows a day is whitespace or a hyphen, which no digit is, and what
    follows whitespace is a letter or a digit. *)
Fixpoint match_directives (ds : list directive) (acc : date) (s : str) : option (date * str) :=
  match ds with
  | [] => Some (acc, s)
  | D_d :: ds' =>
      match match_d s with
      | Some (v, r) => match_directives ds' (Date (year acc) (month acc) v) r
      | None => None
      end
  | D_B :: ds' =>
      match match_B s with
      | Some (v, r) => match_directives ds' (Date (year acc) v (day acc)) r
      | None => None
      end
  | D_Y :: ds' =>
      match match_Y s with
      | Some (v, r) => match_directives ds' (Date v (month acc) (day acc)) r
      | None => None
      end
  | D_space :: ds' =>
      match s with
      | c :: r => if is_space c then match_directives ds' acc (drop_while is_space r) else None
      | [] => None
      end
  | D_lit c :: ds' =>
      match s with
      | x :: r => if x =? c then match_directives ds' acc r else None
      | [] => None
      end
  end.

Definition is_leap (y : N) : bool :=
  (y mod 4 =? 0) && (negb (y mod 100 =? 0) || (y mod 400 =? 0)).

Definition days_in_month (y m : N) : N :=
  if m =? 2 then (if is_leap y then 29 else 28)
  else if (m =? 4) || (m =? 6) || (m =? 9) || (m =? 11) then 30
  else 31.

Definition valid_date (d : date) : bool :=
  (1 <=? year d) && (year d <=? 9999) &&
  (1 <=? month d) && (month d <=? 12) &&
  (1 <=? day d) && (day d <=? days_in_month (year d) (month d)).

(** [datetime.strptime(data, fmt)]; [None] stands for the [ValueError] of
    a format that does not match, of data left over, or of a day the month
    does not have. *)
Definition strptime (data fmt : str) : option date :=
  match format_directives false fmt with
  | None => None
  | Some ds =>
      match match_directives ds (Date 1900 1 1) data with
      | Some (d, []) => if valid_date d then Some d else None
      | _ => None
      end
  end.

Definition year_str (y : N) : str :=
  if (1000 <=? y) && (y <=? 9999) then decimal_digits 4 y else libc_year y.

(** [d.strftime(fmt)] for the directives %Y, %m and %d; everything else
    is copied. *)
Fixpoint strftime (d : date) (fmt : str) : str :=
  match fmt with
  | [] => []
  | c :: fmt' =>
      if is_chr "%" c then
        match fmt' with
        | [] => [c]
        | x :: fmt'' =>
            (if is_chr "Y" x then year_str (year d)
             else if is_chr "m" x then decimal_digits 2 (month d)
             else if is_chr "d" x then decimal_digits 2 (day d)
             else [c; x]) ++ strftime d fmt''
        end
      else c :: strftime d fmt'
  end.

End WithPlatform.

(** ** Exceptions, the environment and the monad of the scraper *)

Record exn := Exn { exn_text : str }.

Inductive outcome (A : Type) :=
| Ok (a : A)
| Raise (e : exn).
Arguments Ok {A} a.
Arguments Raise {A} e.

(** What the scraper reads off a parsed page: the text of every <p>
    element as [get_text(" ", strip=True)] gives it, in document order; the
    text of the <title> element when there is one; and [soup.text]. *)
Record soup := Soup {
  soup_p : list str;
  soup_title : option str;
  soup_text : str
}.

(** [article.publish_date] is empty, a datetime, or some other value, whose
    [strftime] raises. *)
Inductive publish_date :=
| Pd_none
| Pd_datetime (d : date)
| Pd_other (e : exn).

Record article := Article {
  art_title : str;
  art_publish_date : publish_date
}.

(** The three statements [Article(url, config)], [download()], [parse()]:
    an exception may come before the variable [article] is bound, or
    after, in which case the object is left in some state. *)
Inductive structured_pass :=
| Pass_unbound (e : exn)
| Pass_raised (e : exn) (a : article)
| Pass_parsed (a : article).

(** The collaborators.  Those that reach the network read and change the
    state of the world, and may raise.  The parser of the page works inside
    the process, on the text it is given, and may raise on it (a text with
    a lone surrogate cannot be encoded for the parser library). *)
Class Services := {
  world : Type;
  requests_get_text : str -> world -> outcome str * world;
  BeautifulSoup : str -> outcome soup;
  tldextract_domain : str -> world -> outcome str * world;
  newspaper_article : str -> world -> structured_pass * world;
  GoogleTranslator_translate : str -> world -> outcome str * world;
  find_date : str -> world -> outcome (option str) * world
}.

(** Every call that leaves the process is logged. *)
Inductive call :=
| Call_get (url : str)
| Call_domain (url : str)
| Call_article (url : str)
| Call_translate (text : str)
| Call_find_date (url : str).

Record state {S : Services} := State {
  st_world : world;
  st_calls : list call
}.
Arguments State {S} st_world st_calls.

Definition M {S : Services} (A : Type) : Type := state -> outcome A * state.

Section Monad.
Context {S : Services}.

Definition ret {A} (a : A) : M A := fun s => (Ok a, s).

Definition bind {A B} (m : M A) (k : A -> M B) : M B :=
  fun s =>
    match m s with
    | (Ok a, s') => k a s'
    | (Raise e, s') => (Raise e, s')
    end.

Definition raise {A} (e : exn) : M A := fun s => (Raise e, s).

(** A step inside the process that may raise. *)
Definition of_outcome {A} (o : outcome A) : M A := fun s => (o, s).

(** try: m / except: h *)
Definition try_except {A} (m : M A) (h : exn -> M A) : M A :=
  fun s =>
    match m s with
    | (Ok a, s') => (Ok a, s')
    | (Raise e, s') => h e s'
    end.

(** A call to a collaborator that may raise, and one that reports its
    failure in the value it returns. *)
Definition invoke {A} (c : call) (f : world -> outcome A * world) : M A :=
  fun s =>
    let (r, w) := f (st_world s) in
    (r, State w (st_calls s ++ [c])).

Definition observe {A} (c : call) (f : world -> A * world) : M A :=
  fun s =>
    let (r, w) := f (st_world s) in
    (Ok r, State w (st_calls s ++ [c])).

End Monad.

Notation "x <- m ;; k" := (bind m (fun x => k))
  (at level 100, m at next level, right associativity,
   format "'[v' x  <-  m  ;;  '/' k ']'").

(** ** The scraper *)

Section Scraper.
Context {P : Platform} {S : Services}.

Definition has_malayalam (text : str) : bool :=
  match re_search [is_malayalam] text with Some _ => true | None => false end.

Definition translate_text_if_needed (text : str) : M str :=
  if truthy text && has_malayalam text then
    try_except
      (invoke (Call_translate text) (GoogleTranslator_translate text))
      (fun _ => ret text)
  else ret text.

Definition date_formats : list str :=
  [utf8 "%d %B %Y"; utf8 "%d-%B-%Y"; utf8 "%d %B, %Y"].

(** The inner loop: the first format that parses returns. *)
Fixpoint parse_fixed (fixed : str) (fmts : list str) : option str :=
  match fmts with
  | [] => None
  | fmt :: fmts' =>
      match strptime fixed fmt with
      | Some d => Some (strftime d (utf8 "%Y-%m-%d"))
      | None => parse_fixed fixed fmts'
      end
  end.

(** The outer loop over the items of the month table. *)
Fixpoint extract_date_from (months : list (str * str)) (text : str) : option str :=
  match months with
  | [] => None
  | (ml, eng) :: months' =>
      if str_in ml text then
        match parse_fixed (str_replace ml eng text) date_formats with
        | Some r => Some r
        | None => extract_date_from months' text
        end
      else extract_date_from months' text
  end.

Definition extract_malayalam_date (text : str) : option str :=
  extract_date_from MALAYALAM_MONTHS text.

Definition extract_malayalam_text (sp : soup) : str :=
  let mal :=
    fold_left
      (fun mal text =>
         if has_malayalam text then
           let clean := re_sub_plus not_space_malayalam (utf8 " ") text in
           mal ++ [str_strip clean]
         else mal)
      (soup_p sp) [] in
  match mal with
  | [] => utf8 ""
  | _ :: _ => str_join (utf8 " ") mal
  end.

(** lines 90-93 *)
Definition fetch_html (url : str) : M str :=
  try_except (invoke (Call_get url) (requests_get_text url)) (fun _ => ret (utf8 "")).

(** lines 98-100 *)
Definition media_source_of (url : str) : M str :=
  extracted <- invoke (Call_domain url) (tldextract_domain url) ;;
  let domain := str_lower extracted in
  ret (default (str_capitalize domain) (MEDIA_MAP !! domain)).

(** lines 105-121: the title before translation, and the variable
    [article] ([None] when it was never bound).  When the try block runs
    to its end the title of the article is taken if it is not empty; the
    except branch looks for the <title> tag of the page. *)
Definition structured_title (url : str) (sp : soup) : M (str * option article) :=
  let title := utf8 "No Title Found" in
  let fallback :=
    match soup_title sp with
    | Some t => str_strip t
    | None => title
    end in
  pass <- observe (Call_article url) (newspaper_article url) ;;
  ret (match pass with
       | Pass_parsed a =>
           (if truthy (art_title a) then str_strip (art_title a) else title, Some a)
       | Pass_raised _ a => (fallback, Some a)
       | Pass_unbound _ => (fallback, None)
       end).

(** lines 105-123 *)
Definition title_of (url : str) (sp : soup) : M (str * option article) :=
  ta <- structured_title url sp ;;
  title <- translate_text_if_needed (fst ta) ;;
  ret (title, snd ta).

(** lines 128-129 *)
Definition summary_of (sp : soup) : M str :=
  let mal_text := extract_malayalam_text sp in
  if truthy mal_text then translate_text_if_needed mal_text
  else ret (utf8 "No readable Malayalam content found.").

Definition opt_truthy (o : option str) : bool :=
  match o with Some s => truthy s | None => false end.

Definition py_strftime (pd : publish_date) (fmt : str) : M str :=
  match pd with
  | Pd_datetime d => ret (strftime d fmt)
  | Pd_other e => raise e
  | Pd_none => raise (Exn (utf8 "'NoneType' object has no attribute 'strftime'"))
  end.

Definition pd_truthy (pd : publish_date) : bool :=
  match pd with Pd_none => false | _ => true end.

(** lines 134-163 *)
Definition resolve_date (url : str) (sp : soup) (art : option article) : M str :=
  let pub_date_str : option str := None in
  (* Method A *)
  pub_date_str <-
    try_except
      (found <- invoke (Call_find_date url) (find_date url) ;;
       ret (if opt_truthy found then found else pub_date_str))
      (fun _ => ret pub_date_str) ;;
  (* Method B *)
  let pub_date_str :=
    if negb (opt_truthy pub_date_str) then
      let parsed := extract_malayalam_date (soup_text sp) in
      if opt_truthy parsed then parsed else pub_date_str
    else pub_date_str in
  (* Method C *)
  pub_date_str <-
    try_except
      (match art with
       | Some a =>
           if negb (opt_truthy pub_date_str) && pd_truthy (art_publish_date a) then
             r <- py_strftime (art_publish_date a) (utf8 "%Y-%m-%d") ;;
             ret (Some r)
           else ret pub_date_str
       | None => ret pub_date_str
       end)
      (fun _ => ret pub_date_str) ;;
  (* Method D *)
  let match_ := re_search url_date_pattern url in
  let pub_date_str :=
    match match_ with
    | Some m =>
        if negb (opt_truthy pub_date_str) then
          Some (firstn 4 (skipn 1 m) ++ utf8 "-" ++ firstn 2 (skipn 6 m) ++
                utf8 "-" ++ firstn 2 (skipn 9 m))
        else pub_date_str
    | None => pub_date_str
    end in
  ret (if negb (opt_truthy pub_date_str) then utf8 "Date Not Found"
       else default [] pub_date_str).

Definition analyze_news_article (url : str) : M (gmap string str) :=
  html <- fetch_html url ;;
  sp <- of_outcome (BeautifulSoup html) ;;                        (* line 95 *)
  media_source <- media_source_of url ;;
  ta <- title_of url sp ;;
  let title := fst ta in
  let art := snd ta in
  summary <- summary_of sp ;;
  pub_date_str <- resolve_date url sp art ;;
  ret (<["url" := url]>
       (<["media_source" := media_source]>
        (<["date" := pub_date_str]>
         (<["title" := title]>
          (<["summary" := summary]> ∅))))).

(** ** The endpoint (api.py) *)

Inductive response :=
| JSONResponse (content : gmap string str)      (* status 200 *)
| HTTPException (status_code : N) (detail : str).

Definition scrape (url : str) : M response :=
  try_except
    (data <- analyze_news_article url ;;
     ret (JSONResponse data))
    (fun e => ret (HTTPException 500 (exn_text e))).

End Scraper.

(** ** Concrete platforms and environments, to run the definitions *)

Fixpoint strip_zeros (keep : nat) (s : str) : str :=
  match s with
  | c :: s' =>
      if (c =? 0x30) && (keep <? length s')%nat then strip_zeros keep s' else s
  | [] => []
  end.

(** Tables that are exact on Basic Latin and on the Malayalam block (whose
    digits are U+0D66 to U+0D6F), with the unpadded year of glibc. *)
Definition reference_platform : Platform := {|
  unicode_decimal c :=
    if (0x0D66 <=? c) && (c <=? 0x0D6F) then Some (c - 0x0D66) else None;
  unicode_lower s := map ascii_lower s;
  unicode_capitalize s :=
    match s with
    | [] => []
    | c :: s' => ascii_upper c :: map ascii_lower s'
    end;
  libc_year y := strip_zeros 0 (decimal_digits 4 y)
|}.

(** An environment that answers every call from a script. *)
Definition scripted (html : outcome str) (sp : soup) (domain : outcome str)
    (pass : structured_pass) (translation : str -> outcome str)
    (found : outcome (option str)) : Services := {|
  world := unit;
  requests_get_text _ w := (html, w);
  BeautifulSoup _ := Ok sp;
  tldextract_domain _ w := (domain, w);
  newspaper_article _ w := (pass, w);
  GoogleTranslator_translate text w := (translation text, w);
  find_date _ w := (found, w)
|}.

Definition unreachable : exn := Exn (utf8 "Connection refused").

(** ** Definitions that follow the wording of the specification *)

(** "Strip every character that is neither that Malayalam block nor a
    space", read as removal. *)
Definition remove_foreign (s : str) : str :=
  List.filter (fun c => is_chr " " c || is_malayalam c) s.

(** Every maximal run of characters of the class becomes [repl] once;
    [in_run] tells that the previous character was of the class. *)
Fixpoint squash_runs (cls : char -> bool) (repl : str) (in_run : bool) (s : str) : str :=
  match s with
  | [] => []
  | c :: s' =>
      if cls c then
        (if in_run then [] else repl) ++ squash_runs cls repl true s'
      else c :: squash_runs cls repl false s'
  end.

Definition trim_spaces (s : str) : str :=
  rev (drop_while (is_chr " ") (rev (drop_while (is_chr " ") s))).

(** Body extraction: the paragraphs with a Malayalam character, each with
    its foreign runs squashed to one space and trimmed, joined by spaces. *)
Definition malayalam_body (paragraphs : list str) : str :=
  str_join [chr " "]
    (map (fun t => trim_spaces (squash_runs not_space_malayalam [chr " "] false t))
       (List.filter has_malayalam paragraphs)).

Section Cascade.
Context {P : Platform}.

Definition keep_truthy (o : option str) : option str :=
  if opt_truthy o then o else None.

(** Tier (a): generic date inference; an exception is no value. *)
Definition generic_inference (found : outcome (option str)) : option str :=
  match found with
  | Ok o => keep_truthy o
  | Raise _ => None
  end.

(** Tier (b): the Malayalam-literal scan of the page text. *)
Definition malayalam_literal_date (sp : soup) : option str :=
  keep_truthy (extract_malayalam_date (soup_text sp)).

(** Tier (c): the metadata date of the structured parse. *)
Definition metadata_date (art : option article) : option str :=
  match art with
  | Some (Article _ (Pd_datetime d)) => Some (strftime d (utf8 "%Y-%m-%d"))
  | _ => None
  end.

(** Tier (d): the date-shaped segment of the URL. *)
Definition url_path_date (url : str) : option str :=
  match re_search url_date_pattern url with
  | Some m =>
      Some (firstn 4 (skipn 1 m) ++ [chr "-"] ++ firstn 2 (skipn 6 m) ++
            [chr "-"] ++ firstn 2 (skipn 9 m))
  | None => None
  end.

(** The first tier, in the order given, that produced a value. *)
Fixpoint first_value (tiers : list (option str)) : option str :=
  match tiers with
  | [] => None
  | t :: tiers' => if opt_truthy t then t else first_value tiers'
  end.

Definition date_cascade (found : outcome (option str)) (sp : soup)
    (art : option article) (url : str) : str :=
  default (utf8 "Date Not Found")
    (first_value [generic_inference found; malayalam_literal_date sp;
                  metadata_date art; url_path_date url]).

(** A date-shaped segment of the URL at offset [length pre]: a slash, four
    digits, a slash or hyphen, two digits, a slash or hyphen, two digits. *)
Definition date_segment_at (url pre y m d : str) : Prop :=
  exists s1 s2 post,
    url = pre ++ [chr "/"] ++ y ++ [s1] ++ m ++ [s2] ++ d ++ post /\
    length y = 4%nat /\ length m = 2%nat /\ length d = 2%nat /\
    Forall (fun c => is_digit c = true) (y ++ m ++ d) /\
    (s1 = chr "/" \/ s1 = chr "-") /\ (s2 = chr "/" \/ s2 = chr "-").

(** The publisher of a domain token: the mapped name, or the token
    capitalized. *)
Definition publisher (domain : str) : str :=
  match MEDIA_MAP !! domain with
  | Some name => name
  | None => str_capitalize domain
  end.

End Cascade.

(** ** A run with no reachable network

    Every call that needs the network raises; the domain extraction works
    from its bundled suffix list, and an empty page parses to an empty
    document. *)
Definition offline : Services :=
  scripted (Raise unreachable) (Soup [] None []) (Ok (utf8 "manoramaonline"))
    (Pass_raised unreachable (Article [] Pd_none)) (fun _ => Raise unreachable)
    (Raise unreachable).

(** The same, except that generic date inference answers. *)
Definition inferring : Services :=
  scripted (Raise unreachable) (Soup [] None []) (Ok (utf8 "manoramaonline"))
    (Pass_raised unreachable (Article [] Pd_none)) (fun _ => Raise unreachable)
    (Ok (Some (utf8 "2024-01-15"))).

(** A page with a <title>, whose structured parse gives a title with
    blanks around it, or an empty one. *)
Definition titled_page : soup := Soup [] (Some (utf8 " Kerala ")) (utf8 " Kerala ").

Definition titled : Services :=
  scripted (Ok (utf8 "<html><head><title> Kerala </title></head></html>"))
    titled_page (Ok (utf8 "thehindu"))
    (Pass_parsed (Article (utf8 "  Kerala budget 2024 ") Pd_none))
    (fun _ => Raise unreachable) (Raise unreachable).

Definition untitled : Services :=
  scripted (Ok (utf8 "<html><head><title> Kerala </title></head></html>"))
    titled_page (Ok (utf8 "thehindu"))
    (Pass_parsed (Article [] Pd_none))
    (fun _ => Raise unreachable) (Raise unreachable).

Definition offline_url : str :=
  utf8 "https://www.manoramaonline.com/news/kerala/2024/12/07/story.html".

Definition offline_record : gmap string str :=
  <["url" := offline_url]>
  (<["media_source" := utf8 "Malayala Manorama"]>
   (<["date" := utf8 "2024-12-07"]>
    (<["title" := utf8 "No Title Found"]>
     (<["summary" := utf8 "No readable Malayalam content found."]> ∅)))).

Definition offline_calls : list call :=
  [Call_get offline_url; Call_domain offline_url; Call_article offline_url;
   Call_find_date offline_url].

(** An environment whose domain extraction raises. *)
Definition malformed : exn := Exn (utf8 "malformed URL").

Definition domainless : Services :=
  scripted (Raise unreachable) (Soup [] None []) (Raise malformed)
    (Pass_raised unreachable (Article [] Pd_none)) (fun _ => Raise unreachable)
    (Raise unreachable).

(** A page in English, whose translation service would answer. *)
Definition english_page : soup :=
  Soup [utf8 "Kerala news"; utf8 "2024."] None (utf8 "Kerala news 2024.").

Definition english : Services :=
  scripted (Ok (utf8 "<p>Kerala news</p><p>2024.</p>")) english_page
    (Ok (utf8 "thehindu")) (Pass_parsed (Article (utf8 "Kerala news") Pd_none))
    (fun _ => Ok (utf8 "translated")) (Raise unreachable).

Definition english_record : gmap string str :=
  <["url" := offline_url]>
  (<["media_source" := utf8 "The Hindu"]>
   (<["date" := utf8 "2024-12-07"]>
    (<["title" := utf8 "Kerala news"]>
     (<["summary" := utf8 "No readable Malayalam content found."]> ∅)))).

(** An environment whose page has a lone surrogate, which the parser
    refuses to encode; the fetch itself succeeds. *)
Definition is_surrogate (c : char) : bool := (0xD800 <=? c) && (c <=? 0xDFFF).

Definition unencodable : exn :=
  Exn (utf8 "'utf-8' codec can't encode character '\ud800' in position 4: surrogates not allowed").

Definition surrogate_html : str := utf8 "<p>ക" ++ [0xD800] ++ utf8 "</p>".

Definition unparsable : Services := {|
  world := unit;
  requests_get_text _ w := (Ok surrogate_html, w);
  BeautifulSoup html :=
    if existsb is_surrogate html then Raise unencodable else Ok (Soup [] None []);
  tldextract_domain _ w := (Ok (utf8 "manoramaonline"), w);
  newspaper_article _ w := (Pass_raised unreachable (Article [] Pd_none), w);
  GoogleTranslator_translate _ w := (Raise unreachable, w);
  find_date _ w := (Raise unreachable, w)
|}.

(** Stripping what [f] accepts from both ends: [str_strip] is
    [strip_both is_space], and [trim_spaces] is [strip_both] of the space. *)
Definition strip_both (f : char -> bool) (s : str) : str :=
  rev (drop_while f (rev (drop_while f s))).

(** A page with two Malayalam paragraphs and an English one. *)
Definition sample_page : soup :=
  Soup [utf8 " (കേരളം) news "; utf8 "hello"; utf8 "ഇന്ത്യ, 2024."] None
    (utf8 "Kerala (കേരളം) news hello ഇന്ത്യ, 2024.").

(** An environment whose translation service answers. *)
Definition translating : Services :=
  scripted (Ok (utf8 "<p> (കേരളം) news </p><p>hello</p><p>ഇന്ത്യ, 2024.</p>"))
    sample_page (Ok (utf8 "BBC"))
    (Pass_parsed (Article (utf8 "കേരളം") Pd_none))
    (fun _ => Ok (utf8 "Kerala India")) (Raise unreachable).

(** ** Dates as they are written

    The three layouts the formats of the scraper read: "7 ഡിസംബർ 2024",
    "7-ഡിസംബർ-2024" and "7 ഡിസംബർ, 2024", the day with or without a
    leading zero and the year on four digits. *)
Inductive layout := Spaced | Hyphened | Comma.

Definition before_month (l : layout) : str :=
  match l with
  | Spaced => utf8 " "
  | Hyphened => utf8 "-"
  | Comma => utf8 " "
  end.

Definition after_month (l : layout) : str :=
  match l with
  | Spaced => utf8 " "
  | Hyphened => utf8 "-"
  | Comma => utf8 ", "
  end.

Definition day_text (padded : bool) (n : N) : str :=
  if padded || (10 <=? n) then decimal_digits 2 n else decimal_digits 1 n.

Definition written_date (l : layout) (padded : bool) (d : date) (month_name : str) : str :=
  day_text padded (day d) ++ before_month l ++ month_name ++ after_month l ++
  decimal_digits 4 (year d).

(** * Properties *)

(** ** Text *)

Lemma match_here_single (f : char -> bool) (s : str) :
  match_here [f] s =
  match s with
  | c :: _ => if f c then Some [c] else None
  | [] => None
  end.
Proof. destruct s as [|c s']; cbn; [done|]. by destruct (f c). Qed.

Lemma has_malayalam_existsb (text : str) :
  has_malayalam text = existsb is_malayalam text.
Proof.
  unfold has_malayalam. induction text as [|c text IH]; [done|].
  cbn [re_search existsb]. rewrite match_here_single.
  destruct (is_malayalam c); [done|]. exact IH.
Qed.

Lemma is_malayalam_spec (c : char) :
  is_malayalam c = true <-> 0x0D00 <= c <= 0x0D7F.
Proof. unfold is_malayalam. rewrite andb_true_iff, !N.leb_le. tauto. Qed.

Lemma has_malayalam_false (text : str) :
  has_malayalam text = false <->
  (forall c, In c text -> ~ (0x0D00 <= c <= 0x0D7F)).
Proof.
  rewrite has_malayalam_existsb. split.
  - intros Hex c Hin Hc. apply is_malayalam_spec in Hc.
    assert (existsb is_malayalam text = true) as Ht.
    { apply existsb_exists. eauto. }
    congruence.
  - intros Hall. apply not_true_is_false. intros Hex.
    apply existsb_exists in Hex as (c & Hin & Hc).
    apply (Hall c Hin). by apply is_malayalam_spec.
Qed.

Lemma has_malayalam_true (text : str) :
  has_malayalam text = true <->
  (exists c, In c text /\ 0x0D00 <= c <= 0x0D7F).
Proof.
  rewrite has_malayalam_existsb, existsb_exists.
  split; intros (c & Hin & Hc); exists c; split; auto; by apply is_malayalam_spec.
Qed.

(** ** The translation gate *)

Section Translation.
Context {S : Services}.

Lemma translate_skips (text : str) (s : state) :
  truthy text && has_malayalam text = false ->
  translate_text_if_needed text s = (Ok text, s).
Proof. intros Hg. unfold translate_text_if_needed. by rewrite Hg. Qed.

(** Translation never raises: a failure of the service gives the text
    back. *)
Lemma translate_never_raises (text : str) (s : state) :
  exists r s', translate_text_if_needed text s = (Ok r, s').
Proof.
  unfold translate_text_if_needed.
  destruct (truthy text && has_malayalam text); [|by eexists _, _].
  unfold try_except, invoke, ret.
  destruct (GoogleTranslator_translate text (st_world s)) as [[r|e] w];
    by eexists _, _.
Qed.

(** C7. Text with no character in U+0D00-U+0D7F comes back from
    [translate_text_if_needed] unchanged, and the translation service is
    not called: the state of the world and the log of calls are the ones
    the function started from. *)
Theorem translate_identity_without_malayalam (text : str) (s : state) :
  (forall c, In c text -> ~ (0x0D00 <= c <= 0x0D7F)) ->
  translate_text_if_needed text s = (Ok text, s).
Proof.
  intros Hno. apply translate_skips.
  apply has_malayalam_false in Hno. rewrite Hno. apply andb_false_r.
Qed.

End Translation.

Lemma translate_identity_without_malayalam_witness :
  let S := scripted (Raise unreachable) (Soup [] None []) (Raise unreachable)
             (Pass_unbound unreachable) (fun _ => Ok (utf8 "translated"))
             (Raise unreachable) in
  @translate_text_if_needed S (utf8 "Kerala news, 2024") (State tt []) =
  (Ok (utf8 "Kerala news, 2024"), State tt []).
Proof.
  intros S. apply (@translate_identity_without_malayalam S).
  intros c Hin. vm_compute in Hin.
  repeat (destruct Hin as [<-|Hin]; [vm_compute; intros [Hlo _]; by apply Hlo|]).
  destruct Hin.
Defined.

(** ** Body extraction *)

Lemma squash_runs_in_run (cls : char -> bool) (repl s : str) :
  squash_runs cls repl true s = squash_runs cls repl false (drop_while cls s).
Proof.
  induction s as [|c s' IH]; [done|].
  cbn [squash_runs drop_while]. destruct (cls c) eqn:Hc; [exact IH|].
  cbn [squash_runs]. by rewrite Hc.
Qed.

Lemma drop_while_length (f : char -> bool) (s : str) :
  (length (drop_while f s) <= length s)%nat.
Proof.
  induction s as [|c s' IH]; cbn; [lia|]. destruct (f c); cbn; lia.
Qed.

(** The substitution of the regular expression engine is the squashing of
    maximal runs. *)
Lemma re_sub_plus_squash (cls : char -> bool) (repl s : str) :
  re_sub_plus cls repl s = squash_runs cls repl false s.
Proof.
  remember (length s) as n eqn:Hn.
  revert s Hn. induction n as [n IH] using lt_wf_ind. intros s Hn.
  destruct s as [|c s']; [by simp re_sub_plus|].
  simp re_sub_plus. cbn [squash_runs]. destruct (cls c) eqn:Hc; cbn.
  - rewrite squash_runs_in_run. f_equal.
    apply (IH (length (drop_while cls s'))); [|done].
    subst n. cbn. pose proof (drop_while_length cls s'). lia.
  - f_equal. apply (IH (length s')); [|done]. subst n. cbn. lia.
Qed.

Lemma squash_runs_alphabet (cls : char -> bool) (c0 : char) (b : bool) (s : str) :
  forall c, In c (squash_runs cls [c0] b s) -> c = c0 \/ (In c s /\ cls c = false).
Proof.
  revert b. induction s as [|x s' IH]; intros b c; [done|].
  cbn [squash_runs]. destruct (cls x) eqn:Hx.
  - intros Hin. apply in_app_or in Hin as [Hin|Hin].
    + destruct b; [done|]. destruct Hin as [<-|[]]. by left.
    + destruct (IH _ _ Hin) as [->|[Hin' Hc]]; [by left|]. right. split; [by right|done].
  - intros [<-|Hin]; [right; split; [by left|done]|].
    destruct (IH _ _ Hin) as [->|[Hin' Hc]]; [by left|]. right. split; [by right|done].
Qed.

Lemma malayalam_not_space (c : char) : is_malayalam c = true -> is_space c = false.
Proof.
  intros Hc. apply is_malayalam_spec in Hc.
  apply not_true_is_false. unfold is_space.
  rewrite !orb_true_iff, !andb_true_iff, !N.leb_le, !N.eqb_eq. lia.
Qed.

Lemma clean_char_space (c : char) :
  c = chr " " \/ not_space_malayalam c = false -> is_space c = is_chr " " c.
Proof.
  unfold not_space_malayalam, is_chr. intros [->|Hc]; [done|].
  apply negb_false_iff, orb_true_iff in Hc as [Hc|Hc].
  - apply N.eqb_eq in Hc as ->. done.
  - rewrite (malayalam_not_space c Hc). symmetry. apply N.eqb_neq.
    apply is_malayalam_spec in Hc. intros ->. vm_compute in Hc. destruct Hc as [Hc _]. by apply Hc.
Qed.

Lemma drop_while_ext (f g : char -> bool) (s : str) :
  (forall c, In c s -> f c = g c) -> drop_while f s = drop_while g s.
Proof.
  induction s as [|c s' IH]; intros Hfg; [done|]. cbn.
  rewrite <- (Hfg c) by by left. destruct (f c); [|done].
  apply IH. intros x Hx. apply Hfg. by right.
Qed.

Lemma drop_while_incl (f : char -> bool) (s : str) (c : char) :
  In c (drop_while f s) -> In c s.
Proof.
  induction s as [|x s' IH]; [done|]. cbn. destruct (f x); [|done].
  intros Hin. right. by apply IH.
Qed.

(** On text made of spaces and Malayalam characters, [strip] only has
    spaces to remove. *)
Lemma str_strip_clean (s : str) :
  (forall c, In c s -> c = chr " " \/ not_space_malayalam c = false) ->
  str_strip s = trim_spaces s.
Proof.
  intros Hs. unfold str_strip, str_rstrip, str_lstrip, trim_spaces.
  assert (drop_while is_space s = drop_while (is_chr " ") s) as ->.
  { apply drop_while_ext. intros c Hc. apply clean_char_space. auto. }
  f_equal. apply drop_while_ext. intros c Hc. apply clean_char_space.
  apply Hs. apply in_rev in Hc. by apply drop_while_incl in Hc.
Qed.

Lemma extract_loop (ps : list str) (mal : list str) :
  fold_left
    (fun mal text =>
       if has_malayalam text then
         mal ++ [str_strip (re_sub_plus not_space_malayalam (utf8 " ") text)]
       else mal) ps mal =
  mal ++ map (fun t => trim_spaces (squash_runs not_space_malayalam [chr " "] false t))
           (List.filter has_malayalam ps).
Proof.
  revert mal. induction ps as [|t ps IH]; intros mal; cbn [fold_left List.filter map].
  - by rewrite app_nil_r.
  - rewrite IH. destruct (has_malayalam t); [|done].
    cbn [map]. rewrite <- app_assoc. cbn [app]. do 2 f_equal.
    change (utf8 " ") with [chr " "]. rewrite re_sub_plus_squash.
    apply str_strip_clean. intros c Hc.
    apply squash_runs_alphabet in Hc as [->|[_ Hc]]; auto.
Qed.

(** The loop of [extract_malayalam_text], as one expression. *)
Lemma extract_malayalam_text_body (sp : soup) :
  extract_malayalam_text sp = malayalam_body (soup_p sp).
Proof.
  unfold extract_malayalam_text, malayalam_body. rewrite extract_loop. cbn [app].
  by destruct (map _ _).
Qed.

(** C3, as the code has it. Body extraction keeps exactly the paragraphs
    that contain a character in U+0D00-U+0D7F; in each of them every
    maximal run of characters that are neither in that block nor a space is
    replaced by one space (the characters are not just removed); the texts
    are then trimmed and joined by single spaces. *)
Theorem extract_malayalam_text_squashes (sp : soup) :
  extract_malayalam_text sp = malayalam_body (soup_p sp).
Proof.
  unfold extract_malayalam_text, malayalam_body. rewrite extract_loop. cbn [app].
  by destruct (map _ _).
Qed.

Lemma str_join_In (sep : str) (l : list str) (c : char) :
  In c (str_join sep l) -> In c sep \/ exists t, In t l /\ In c t.
Proof.
  induction l as [|t l IH]; [done|]. cbn [str_join]. destruct l as [|t' l'].
  - intros Hc. right. exists t. split; [by left|done].
  - intros Hc. apply in_app_or in Hc as [Hc|Hc].
    + right. exists t. split; [by left|done].
    + apply in_app_or in Hc as [Hc|Hc]; [by left|].
      destruct (IH Hc) as [Hsep|(t0 & Ht0 & Hc0)]; [by left|].
      right. exists t0. split; [by right|done].
Qed.

(** What is extracted holds nothing but Malayalam characters and spaces. *)
Lemma extract_malayalam_text_alphabet (sp : soup) (c : char) :
  In c (extract_malayalam_text sp) -> c = chr " " \/ 0x0D00 <= c <= 0x0D7F.
Proof.
  rewrite extract_malayalam_text_body. unfold malayalam_body.
  intros Hc. apply str_join_In in Hc as [[<-|[]]|(t & Ht & Hc)]; [by left|].
  apply in_map_iff in Ht as (p & <- & _).
  unfold trim_spaces in Hc. apply in_rev, drop_while_incl, in_rev, drop_while_incl in Hc.
  apply squash_runs_alphabet in Hc as [->|[_ Hc]]; [by left|].
  unfold not_space_malayalam in Hc.
  apply negb_false_iff, orb_true_iff in Hc as [Hc|Hc].
  - left. by apply N.eqb_eq in Hc.
  - right. by apply is_malayalam_spec.
Qed.

(** C3 does not hold as written: the Latin letters between two Malayalam
    letters leave a space behind, where removal would join the letters. *)
Lemma extract_malayalam_text_not_removal :
  let sp := Soup [utf8 "കabcക"] None [] in
  extract_malayalam_text sp = utf8 "ക ക" /\
  str_join [chr " "] (map (fun t => trim_spaces (remove_foreign t))
                        (List.filter has_malayalam (soup_p sp))) = utf8 "കക" /\
  extract_malayalam_text sp <>
  str_join [chr " "] (map (fun t => trim_spaces (remove_foreign t))
                        (List.filter has_malayalam (soup_p sp))).
Proof. vm_compute. repeat split; congruence. Qed.

(** ** The Malayalam date *)

Section MalayalamDate.
Context {P : Platform}.

Lemma strftime_ymd (d : date) :
  strftime d (utf8 "%Y-%m-%d") =
  year_str (year d) ++ [chr "-"] ++ decimal_digits 2 (month d) ++
  [chr "-"] ++ decimal_digits 2 (day d).
Proof. reflexivity. Qed.

Lemma strftime_ymd_truthy (d : date) :
  truthy (strftime d (utf8 "%Y-%m-%d")) = true.
Proof. rewrite strftime_ymd. by destruct (year_str (year d)). Qed.

Lemma parse_fixed_first (fixed : str) (fmts : list str) (j : nat) (fmt : str) (d : date) :
  fmts !! j = Some fmt ->
  strptime fixed fmt = Some d ->
  (forall j' fmt', (j' < j)%nat -> fmts !! j' = Some fmt' -> strptime fixed fmt' = None) ->
  parse_fixed fixed fmts = Some (strftime d (utf8 "%Y-%m-%d")).
Proof.
  revert j. induction fmts as [|f fmts IH]; intros j Hj Hd Hbefore; [done|].
  cbn [parse_fixed]. destruct j as [|j].
  - injection Hj as ->. by rewrite Hd.
  - rewrite (Hbefore 0%nat f) by (done || lia).
    apply (IH j); [done|done|]. intros j' fmt' Hlt Hj'.
    apply (Hbefore (Datatypes.S j')); [lia|done].
Qed.

Lemma parse_fixed_none (fixed : str) (fmts : list str) :
  (forall fmt, In fmt fmts -> strptime fixed fmt = None) ->
  parse_fixed fixed fmts = None.
Proof.
  induction fmts as [|f fmts IH]; intros Hnone; [done|].
  cbn [parse_fixed]. rewrite (Hnone f) by by left.
  apply IH. intros fmt Hin. apply Hnone. by right.
Qed.

Lemma parse_fixed_Some_inv (fixed : str) (fmts : list str) (r : str) :
  parse_fixed fixed fmts = Some r ->
  exists fmt d, In fmt fmts /\ strptime fixed fmt = Some d /\
                r = strftime d (utf8 "%Y-%m-%d").
Proof.
  induction fmts as [|f fmts IH]; [done|]. cbn [parse_fixed].
  destruct (strptime fixed f) as [d|] eqn:Hd.
  - intros [= <-]. exists f, d. split_and!; [by left|done|done].
  - intros Hr. destruct (IH Hr) as (fmt & d & Hin & Hp & ->).
    exists fmt, d. split_and!; [by right|done|done].
Qed.

Lemma extract_date_from_first (months : list (str * str)) (text : str)
    (i : nat) (ml eng r : str) :
  months !! i = Some (ml, eng) ->
  str_in ml text = true ->
  parse_fixed (str_replace ml eng text) date_formats = Some r ->
  (forall i' ml' eng', (i' < i)%nat -> months !! i' = Some (ml', eng') ->
     str_in ml' text = true ->
     parse_fixed (str_replace ml' eng' text) date_formats = None) ->
  extract_date_from months text = Some r.
Proof.
  revert i. induction months as [|[ml0 eng0] months IH]; intros i Hi Hin Hr Hbefore; [done|].
  cbn [extract_date_from]. destruct i as [|i].
  - injection Hi as -> ->. by rewrite Hin, Hr.
  - assert (extract_date_from months text = Some r) as Hrest.
    { apply (IH i); [done|done|done|]. intros i' ml' eng' Hlt Hi'.
      apply (Hbefore (Datatypes.S i')); [lia|done]. }
    destruct (str_in ml0 text) eqn:Hin0; [|done].
    by rewrite (Hbefore 0%nat ml0 eng0) by (done || lia).
Qed.

Lemma extract_date_from_none (months : list (str * str)) (text : str) :
  (forall ml eng, In (ml, eng) months -> str_in ml text = true ->
     parse_fixed (str_replace ml eng text) date_formats = None) ->
  extract_date_from months text = None.
Proof.
  induction months as [|[ml0 eng0] months IH]; intros Hnone; [done|].
  cbn [extract_date_from].
  assert (extract_date_from months text = None) as ->.
  { apply IH. intros ml eng Hin. apply Hnone. by right. }
  destruct (str_in ml0 text) eqn:Hin0; [|done].
  by rewrite (Hnone ml0 eng0) by (by left || done).
Qed.

(** C2, as the code has it. The text "7 ഡിസംബർ 2024" gives 2024-12-07.
    In general the month names are taken in the order of the table; for a
    name that occurs in the text, its occurrences are replaced by the
    English name and the whole of the resulting text is parsed against
    'day Month year', 'day-Month-year' and 'day Month, year' in this
    order; the first name and format that parse give the date, written
    with %Y-%m-%d; when no name that occurs parses under any format, and
    in particular when no month name occurs, there is no value. *)
Theorem malayalam_date_whole_text :
  extract_malayalam_date (utf8 "7 ഡിസംബർ 2024") = Some (utf8 "2024-12-07") /\
  date_formats = [utf8 "%d %B %Y"; utf8 "%d-%B-%Y"; utf8 "%d %B, %Y"] /\
  (forall text i j ml eng fmt d,
     MALAYALAM_MONTHS !! i = Some (ml, eng) ->
     date_formats !! j = Some fmt ->
     str_in ml text = true ->
     strptime (str_replace ml eng text) fmt = Some d ->
     (forall i' j' ml' eng' fmt',
        (i' < i \/ (i' = i /\ j' < j))%nat ->
        MALAYALAM_MONTHS !! i' = Some (ml', eng') ->
        date_formats !! j' = Some fmt' ->
        str_in ml' text = true ->
        strptime (str_replace ml' eng' text) fmt' = None) ->
     extract_malayalam_date text = Some (strftime d (utf8 "%Y-%m-%d"))) /\
  (forall text,
     (forall ml eng fmt,
        In (ml, eng) MALAYALAM_MONTHS -> In fmt date_formats ->
        str_in ml text = true ->
        strptime (str_replace ml eng text) fmt = None) ->
     extract_malayalam_date text = None) /\
  (forall d, 1000 <= year d <= 9999 ->
     strftime d (utf8 "%Y-%m-%d") =
     decimal_digits 4 (year d) ++ [chr "-"] ++ decimal_digits 2 (month d) ++
     [chr "-"] ++ decimal_digits 2 (day d)).
Proof.
  split_and!.
  - reflexivity.
  - reflexivity.
  - intros text i j ml eng fmt d Hi Hj Hin Hd Hbefore.
    unfold extract_malayalam_date.
    apply (extract_date_from_first _ _ i ml eng); [done|done| |].
    + apply (parse_fixed_first _ _ j fmt); [done|done|].
      intros j' fmt' Hlt Hj'. apply (Hbefore i j' ml eng fmt'); auto.
    + intros i' ml' eng' Hlt Hi' Hin'. apply parse_fixed_none.
      intros fmt' Hfmt'. apply list_elem_of_In, list_elem_of_lookup in Hfmt' as [j' Hj'].
      apply (Hbefore i' j' ml' eng' fmt'); auto.
  - intros text Hnone. unfold extract_malayalam_date.
    apply extract_date_from_none. intros ml eng Hin Hocc.
    apply parse_fixed_none. intros fmt Hfmt. by apply Hnone.
  - intros d [Hlo Hhi]. rewrite strftime_ymd. unfold year_str.
    apply N.leb_le in Hlo, Hhi. by rewrite Hlo, Hhi.
Qed.

End MalayalamDate.

(** ** The date cascade *)

Section DateCascade.
Context {P : Platform} {S : Services}.

Lemma opt_truthy_keep (o : option str) :
  opt_truthy (keep_truthy o) = opt_truthy o.
Proof. unfold keep_truthy. by destruct (opt_truthy o) eqn:Ho. Qed.

Lemma keep_truthy_true (o : option str) :
  opt_truthy o = true -> keep_truthy o = o.
Proof. unfold keep_truthy. by intros ->. Qed.

Lemma keep_truthy_false (o : option str) :
  opt_truthy o = false -> keep_truthy o = None.
Proof. unfold keep_truthy. by intros ->. Qed.

(** *** The search of the regular expression engine *)

Lemma match_here_Some (pat : list (char -> bool)) (s m : str) :
  match_here pat s = Some m <->
  (exists post, s = m ++ post) /\ Forall2 (fun f c => f c = true) pat m.
Proof.
  revert s m. induction pat as [|f pat IH]; intros s m; cbn [match_here].
  - split.
    + intros [= <-]. split; [by exists s|constructor].
    + intros [_ Hm]. by inversion Hm.
  - destruct s as [|c s'].
    + split; [done|]. intros [[post Hs] Hm]. inversion Hm; subst. done.
    + destruct (f c) eqn:Hc.
      * destruct (match_here pat s') as [m'|] eqn:Hm'.
        -- apply IH in Hm' as [[post ->] Hm']. split.
           ++ intros [= <-]. split; [by exists post|by constructor].
           ++ intros [[post' Hs] Hm]. inversion Hm as [|? x ? m'' ? Hm'']; subst.
              injection Hs as <- Hs. f_equal. f_equal.
              apply Forall2_length in Hm', Hm''.
              apply (f_equal (take (length pat))) in Hs.
              rewrite !take_app_length' in Hs by done. done.
        -- split; [done|]. intros [[post Hs] Hm].
           inversion Hm as [|? x ? m'' ? Hm'']; subst. injection Hs as <- Hs.
           assert (match_here pat s' = Some m'') as Hcontra; [|congruence].
           apply IH. split; [by exists post|done].
      * split; [done|]. intros [[post Hs] Hm].
        inversion Hm as [|? x ? m'' Hx Hm'']; subst. injection Hs as <- Hs. congruence.
Qed.

(** [re_search] returns the match at the least offset that has one. *)
Lemma re_search_Some (pat : list (char -> bool)) (s m : str) :
  re_search pat s = Some m ->
  exists pre post,
    s = pre ++ m ++ post /\ match_here pat (m ++ post) = Some m /\
    forall pre' rest m',
      s = pre' ++ rest -> match_here pat rest = Some m' ->
      (length pre <= length pre')%nat.
Proof.
  induction s as [|c s' IH]; cbn [re_search].
  - destruct (match_here pat []) as [m0|] eqn:Hm0; [|done].
    intros [= <-]. pose proof Hm0 as Hm0'. apply match_here_Some in Hm0' as [[post Hs] _].
    exists [], post. cbn. rewrite <- Hs. split_and!; [done|done|]. intros; cbn; lia.
  - destruct (match_here pat (c :: s')) as [m0|] eqn:Hm0.
    + intros [= <-]. pose proof Hm0 as Hm0'. apply match_here_Some in Hm0' as [[post Hs] _].
      exists [], post. cbn. rewrite <- Hs. split_and!; [done|done|]. intros; cbn; lia.
    + intros Hs'. destruct (IH Hs') as (pre & post & -> & Hm & Hleast).
      exists (c :: pre), post. split_and!; [done|done|].
      intros pre' rest m' Heq Hm'. destruct pre' as [|c' pre'].
      * cbn in Heq. subst rest. congruence.
      * injection Heq as -> Heq. cbn. apply le_n_S. by eapply Hleast.
Qed.

Lemma re_search_None (pat : list (char -> bool)) (pre rest : str) :
  re_search pat (pre ++ rest) = None -> match_here pat rest = None.
Proof.
  induction pre as [|c pre IH]; cbn [app].
  - destruct rest; cbn [re_search]; by destruct (match_here pat _).
  - cbn [re_search]. destruct (match_here pat (c :: pre ++ rest)); [done|]. exact IH.
Qed.

Lemma url_path_date_truthy (url g : str) :
  url_path_date url = Some g -> truthy g = true.
Proof.
  unfold url_path_date. destruct (re_search url_date_pattern url) as [m|]; [|done].
  intros [= <-]. by destruct (take 4 (drop 1 m)).
Qed.

Lemma metadata_date_truthy (art : option article) (v : str) :
  metadata_date art = Some v -> truthy v = true.
Proof.
  unfold metadata_date. destruct art as [[t [|d|e]]|]; try done.
  intros [= <-]. apply strftime_ymd_truthy.
Qed.

(** The scan never produces an empty date, so its truth test is always
    passed. *)
Lemma malayalam_literal_date_extract (sp : soup) :
  malayalam_literal_date sp = extract_malayalam_date (soup_text sp).
Proof.
  unfold malayalam_literal_date, keep_truthy, extract_malayalam_date.
  generalize (soup_text sp) as text. intros text.
  induction MALAYALAM_MONTHS as [|[ml eng] months IH]; [done|].
  cbn [extract_date_from]. destruct (str_in ml text); [|exact IH].
  destruct (parse_fixed _ date_formats) as [r|] eqn:Hr; [|exact IH].
  apply parse_fixed_Some_inv in Hr as (fmt & d & _ & _ & ->).
  cbn [opt_truthy]. by rewrite strftime_ymd_truthy.
Qed.

Lemma bind_ok {A B} (m : M A) (k : A -> M B) (s s' : state) (a : A) :
  m s = (Ok a, s') -> bind m k s = k a s'.
Proof. unfold bind. by intros ->. Qed.

Lemma bind_raise {A B} (m : M A) (k : A -> M B) (s s' : state) (e : exn) :
  m s = (Raise e, s') -> bind m k s = (Raise e, s').
Proof. unfold bind. by intros ->. Qed.

Lemma tier_a_run (url : str) (s : state) :
  try_except
    (found <- invoke (Call_find_date url) (find_date url) ;;
     ret (if opt_truthy found then found else None))
    (fun _ => ret None) s =
  (Ok (generic_inference (find_date url (st_world s)).1),
   State (find_date url (st_world s)).2 (st_calls s ++ [Call_find_date url])).
Proof.
  unfold try_except, bind, invoke, ret.
  by destruct (find_date url (st_world s)) as [[found|e] w].
Qed.

Lemma tier_c_run (art : option article) (pub : option str) (s : state) :
  try_except
    (match art with
     | Some a =>
         if negb (opt_truthy pub) && pd_truthy (art_publish_date a) then
           r <- py_strftime (art_publish_date a) (utf8 "%Y-%m-%d") ;;
           ret (Some r)
         else ret pub
     | None => ret pub
     end)
    (fun _ => ret pub) s =
  (Ok (if opt_truthy pub then pub
       else match metadata_date art with
            | Some r => Some r
            | None => pub
            end), s).
Proof.
  unfold try_except, bind, ret, metadata_date.
  destruct art as [[t [|d|e]]|]; cbn [art_publish_date pd_truthy py_strftime];
    destruct (opt_truthy pub); reflexivity.
Qed.

(** The date section always returns, and returns the value of the
    cascade; its one call to the outside is the generic inference. *)
Lemma resolve_date_run (url : str) (sp : soup) (art : option article) (s : state) :
  resolve_date url sp art s =
  (Ok (date_cascade (find_date url (st_world s)).1 sp art url),
   State (find_date url (st_world s)).2 (st_calls s ++ [Call_find_date url])).
Proof.
  unfold resolve_date.
  erewrite bind_ok; [|apply tier_a_run]. cbv beta zeta.
  erewrite bind_ok; [|apply tier_c_run].
  unfold ret. f_equal. f_equal.
  change (utf8 "-") with [chr "-"].
  match goal with
  | |- context [match re_search url_date_pattern url with
                | Some m => if ?c then _ else ?x
                | None => _
                end] =>
      replace (match re_search url_date_pattern url with
               | Some m =>
                   if c then
                     Some (take 4 (drop 1 m) ++ [chr "-"] ++ take 2 (drop 6 m) ++
                           [chr "-"] ++ take 2 (drop 9 m))
                   else x
               | None => x
               end)
        with (match url_path_date url with
              | Some g => if c then Some g else x
              | None => x
              end)
        by (unfold url_path_date; by destruct (re_search url_date_pattern url))
  end.
  unfold date_cascade, malayalam_literal_date.
  pose proof (url_path_date_truthy url) as Hd.
  generalize (generic_inference (find_date url (st_world s)).1) as a.
  generalize (extract_malayalam_date (soup_text sp)) as b.
  generalize (utf8 "Date Not Found") as nf.
  generalize (metadata_date art) as c.
  intros c nf b a. unfold keep_truthy.
  destruct (url_path_date url) as [[|? ?]|];
    [by specialize (Hd _ eq_refl)| |];
    destruct a as [[|? ?]|], b as [[|? ?]|], c as [[|? ?]|]; reflexivity.
Qed.

(** *** Date-shaped segments of the URL *)

Lemma is_chr_true (a : ascii) (c : char) : is_chr a c = true <-> c = chr a.
Proof. unfold is_chr. apply N.eqb_eq. Qed.

Lemma is_sep_true (c : char) : is_sep c = true <-> c = chr "/" \/ c = chr "-".
Proof. unfold is_sep. by rewrite orb_true_iff, !is_chr_true. Qed.

Lemma url_date_pattern_unfold :
  url_date_pattern =
  [is_chr "/"; is_digit; is_digit; is_digit; is_digit; is_sep; is_digit; is_digit;
   is_sep; is_digit; is_digit].
Proof. reflexivity. Qed.

(** What lies at an offset is a date-shaped segment exactly when the
    pattern matches there, and the groups of the match are its digits. *)
Lemma segment_match (url pre y m d : str) :
  date_segment_at url pre y m d <->
  exists rest mt,
    url = pre ++ rest /\ match_here url_date_pattern rest = Some mt /\
    take 4 (drop 1 mt) = y /\ take 2 (drop 6 mt) = m /\ take 2 (drop 9 mt) = d.
Proof.
  split.
  - intros (s1 & s2 & post & -> & Hy & Hm & Hd & Hdig & Hs1 & Hs2).
    destruct y as [|y1 [|y2 [|y3 [|y4 [|]]]]]; try discriminate Hy.
    destruct m as [|m1 [|m2 [|]]]; try discriminate Hm.
    destruct d as [|d1 [|d2 [|]]]; try discriminate Hd.
    eexists _, [chr "/"; y1; y2; y3; y4; s1; m1; m2; s2; d1; d2].
    split; [reflexivity|]. split; [|done].
    apply match_here_Some. split; [by exists post|].
    rewrite url_date_pattern_unfold. cbn [app] in Hdig.
    repeat match goal with
           | H : Forall _ (_ :: _) |- _ => apply Forall_cons in H as [? H]
           end.
    apply is_sep_true in Hs1, Hs2.
    repeat constructor; done.
  - intros (rest & mt & -> & Hmt & Hy & Hm & Hd).
    apply match_here_Some in Hmt as [[post ->] Hmt].
    rewrite url_date_pattern_unfold in Hmt.
    repeat match goal with
           | H : Forall2 _ (_ :: _) _ |- _ => inversion H; clear H; subst
           | H : Forall2 _ [] _ |- _ => inversion H; clear H; subst
           end.
    cbn in *. subst.
    repeat match goal with
           | H : is_chr _ _ = true |- _ => apply is_chr_true in H; subst
           | H : is_sep _ = true |- _ => apply is_sep_true in H
           end.
    eexists _, _, post. split; [reflexivity|].
    split_and!; try done. repeat constructor; done.
Qed.

(** With a date-shaped segment anywhere in the URL, the URL tier has a
    value: the digits of the segment at the least offset. *)
Lemma url_path_date_leftmost (url pre y m d : str) :
  date_segment_at url pre y m d ->
  exists pre0 y0 m0 d0,
    date_segment_at url pre0 y0 m0 d0 /\
    (forall pre' y' m' d',
       date_segment_at url pre' y' m' d' -> (length pre0 <= length pre')%nat) /\
    url_path_date url = Some (y0 ++ [chr "-"] ++ m0 ++ [chr "-"] ++ d0) /\
    (length pre0 = length pre -> y0 = y /\ m0 = m /\ d0 = d).
Proof.
  intros Hseg. pose proof Hseg as Hseg'.
  apply segment_match in Hseg' as (rest & mt & Hurl & Hmt & Hy & Hm & Hd).
  unfold url_path_date.
  destruct (re_search url_date_pattern url) as [mt0|] eqn:Hsearch.
  - apply re_search_Some in Hsearch as (pre0 & post0 & Hurl0 & Hmt0 & Hleast).
    exists pre0, (take 4 (drop 1 mt0)), (take 2 (drop 6 mt0)), (take 2 (drop 9 mt0)).
    split_and!.
    + apply segment_match. by exists (mt0 ++ post0), mt0.
    + intros pre' y' m' d' (rest' & mt' & Hurl' & Hmt' & _)%segment_match.
      by eapply Hleast.
    + done.
    + intros Hlen. rewrite Hurl0 in Hurl.
      assert (pre0 = pre /\ mt0 ++ post0 = rest) as [-> <-].
      { apply app_inj_1 in Hurl; done. }
      rewrite Hmt0 in Hmt. injection Hmt as <-. done.
  - rewrite Hurl in Hsearch. apply re_search_None in Hsearch. congruence.
Qed.

(** C10, as the code has it. When the earlier tiers produced no value,
    the date is what the URL tier gives, with no calendar check: for a
    URL with a segment of the shape slash, four digits, slash or hyphen,
    two digits, slash or hyphen, two digits, it is the three digit groups
    of the segment at the least offset, joined by hyphens, whatever month
    and day they spell ("/2024/99/99" gives 2024-99-99).  Nothing is
    required after the last two digits, so the day group may be the start
    of a longer run of digits; the month group lies between two
    separators and is never part of a longer run. *)
Theorem url_date_unvalidated (url : str) (sp : soup) (art : option article) (s : state) :
  generic_inference (find_date url (st_world s)).1 = None ->
  malayalam_literal_date sp = None ->
  metadata_date art = None ->
  (resolve_date url sp art s).1 =
    Ok (default (utf8 "Date Not Found") (url_path_date url)) /\
  (forall pre y m d,
     date_segment_at url pre y m d ->
     exists pre0 y0 m0 d0,
       date_segment_at url pre0 y0 m0 d0 /\
       (forall pre' y' m' d',
          date_segment_at url pre' y' m' d' -> (length pre0 <= length pre')%nat) /\
       (resolve_date url sp art s).1 = Ok (y0 ++ [chr "-"] ++ m0 ++ [chr "-"] ++ d0) /\
       (length pre0 = length pre -> y0 = y /\ m0 = m /\ d0 = d)) /\
  url_path_date (utf8 "https://example.com/news/2024/99/99") = Some (utf8 "2024-99-99") /\
  url_path_date (utf8 "https://example.com/news/2024-12/0712345") = Some (utf8 "2024-12-07") /\
  url_path_date (utf8 "https://example.com/news/2024/123/07") = None.
Proof.
  intros Ha Hb Hc.
  assert ((resolve_date url sp art s).1 =
          Ok (default (utf8 "Date Not Found") (url_path_date url))) as Hres.
  { rewrite resolve_date_run. cbn [fst]. unfold date_cascade.
    rewrite Ha, Hb, Hc.
    destruct (url_path_date url) as [g|] eqn:Hg; cbn [first_value opt_truthy]; [|done].
    by rewrite (url_path_date_truthy _ _ Hg). }
  split_and!; [done| |reflexivity|reflexivity|reflexivity].
  intros pre y m d Hseg.
  destruct (url_path_date_leftmost _ _ _ _ _ Hseg) as (pre0 & y0 & m0 & d0 & H0 & Hl & Hv & Heq).
  exists pre0, y0, m0, d0. split_and!; try done. by rewrite Hres, Hv.
Qed.

(** C1. The date section returns the value of the first tier, in the
    order generic inference, Malayalam-literal scan, metadata date, URL
    segment, that produced one, and "Date Not Found" when none did; so a
    tier counts only when every tier before it produced nothing.  When the
    URL segment is the only signal and reads /2024/12/07/ the date is
    2024-12-07; when generic inference succeeds its result is the date,
    whatever the URL holds.  The only call to the outside is the one of
    generic inference. *)
Theorem date_cascade_order (url : str) (sp : soup) (art : option article) (s : state) :
  let found := (find_date url (st_world s)).1 in
  let a := generic_inference found in
  let b := malayalam_literal_date sp in
  let c := metadata_date art in
  let d := url_path_date url in
  let date := (resolve_date url sp art s).1 in
  date = Ok (default (utf8 "Date Not Found") (first_value [a; b; c; d])) /\
  (forall v, a = Some v -> date = Ok v) /\
  (forall v, a = None -> b = Some v -> date = Ok v) /\
  (forall v, a = None -> b = None -> c = Some v -> date = Ok v) /\
  (forall v, a = None -> b = None -> c = None -> d = Some v -> date = Ok v) /\
  (a = None -> b = None -> c = None -> d = None -> date = Ok (utf8 "Date Not Found")) /\
  url_path_date (utf8 "https://www.mathrubhumi.com/news/kerala/2024/12/07/story.html") =
    Some (utf8 "2024-12-07") /\
  (resolve_date url sp art s).2 =
    State (find_date url (st_world s)).2 (st_calls s ++ [Call_find_date url]).
Proof.
  intros found a b c d date.
  assert (date = Ok (default (utf8 "Date Not Found") (first_value [a; b; c; d]))) as Hres.
  { subst date. by rewrite resolve_date_run. }
  assert (forall o v, keep_truthy o = Some v -> opt_truthy (Some v) = true) as Hkeep.
  { intros o v. unfold keep_truthy. destruct (opt_truthy o) eqn:Ho; [|done]. by intros ->. }
  split_and!.
  - done.
  - intros v Ha. rewrite Hres, Ha. cbn [first_value].
    assert (opt_truthy (Some v) = true) as ->; [|done].
    subst a. destruct found as [o|e]; [|done]. by eapply Hkeep.
  - intros v Ha Hb. rewrite Hres, Ha, Hb. cbn [first_value opt_truthy].
    assert (opt_truthy (Some v) = true) as Hv by by eapply Hkeep.
    cbn [opt_truthy] in Hv. by rewrite Hv.
  - intros v Ha Hb Hc. rewrite Hres, Ha, Hb, Hc. cbn [first_value opt_truthy].
    by rewrite (metadata_date_truthy art v Hc).
  - intros v Ha Hb Hc Hd. rewrite Hres, Ha, Hb, Hc, Hd. cbn [first_value opt_truthy].
    by rewrite (url_path_date_truthy url v Hd).
  - intros Ha Hb Hc Hd. by rewrite Hres, Ha, Hb, Hc, Hd.
  - reflexivity.
  - subst date. by rewrite resolve_date_run.
Qed.

End DateCascade.

(** ** The pipeline *)

Section Pipeline.
Context {P : Platform} {S : Services}.

Lemma fetch_html_run (url : str) (s : state) :
  fetch_html url s =
  (Ok (match (requests_get_text url (st_world s)).1 with
       | Ok html => html
       | Raise _ => []
       end),
   State (requests_get_text url (st_world s)).2 (st_calls s ++ [Call_get url])).
Proof.
  unfold fetch_html, try_except, invoke, ret.
  by destruct (requests_get_text url (st_world s)) as [[html|e] w].
Qed.

Lemma media_source_run (url : str) (s : state) :
  media_source_of url s =
  (match (tldextract_domain url (st_world s)).1 with
   | Ok domain => Ok (publisher (str_lower domain))
   | Raise e => Raise e
   end,
   State (tldextract_domain url (st_world s)).2 (st_calls s ++ [Call_domain url])).
Proof.
  unfold media_source_of, bind, invoke, ret, publisher.
  destruct (tldextract_domain url (st_world s)) as [[domain|e] w]; cbn [fst snd]; [|done].
  by destruct (MEDIA_MAP !! str_lower domain).
Qed.

Lemma structured_title_run (url : str) (sp : soup) (s : state) :
  exists t art,
    structured_title url sp s =
    (Ok (t, art),
     State (newspaper_article url (st_world s)).2 (st_calls s ++ [Call_article url])).
Proof.
  unfold structured_title, bind, observe, ret.
  destruct (newspaper_article url (st_world s)) as [[e|e a|a] w]; by eexists _, _.
Qed.

Lemma title_of_never_raises (url : str) (sp : soup) (s : state) :
  exists t art s', title_of url sp s = (Ok (t, art), s').
Proof.
  unfold title_of.
  destruct (structured_title_run url sp s) as (t0 & art & Hst).
  erewrite bind_ok; [|exact Hst]. cbn [fst snd].
  destruct (translate_never_raises t0
              (State (newspaper_article url (st_world s)).2
                 (st_calls s ++ [Call_article url]))) as (t & s' & Ht).
  erewrite bind_ok; [|exact Ht]. by eexists _, _, _.
Qed.

Lemma summary_of_never_raises (sp : soup) (s : state) :
  exists r s', summary_of sp s = (Ok r, s').
Proof.
  unfold summary_of. destruct (truthy (extract_malayalam_text sp)).
  - apply translate_never_raises.
  - by eexists _, _.
Qed.

(** A run of the scraper that returns went through its five sections. *)
Lemma analyze_inv (url : str) (s s' : state) (rec : gmap string str) :
  analyze_news_article url s = (Ok rec, s') ->
  exists html s1 sp media_source s2 title art s3 summary s4 date,
    fetch_html url s = (Ok html, s1) /\
    BeautifulSoup html = Ok sp /\
    media_source_of url s1 = (Ok media_source, s2) /\
    title_of url sp s2 = (Ok (title, art), s3) /\
    summary_of sp s3 = (Ok summary, s4) /\
    resolve_date url sp art s4 = (Ok date, s') /\
    rec = <["url" := url]>
          (<["media_source" := media_source]>
           (<["date" := date]>
            (<["title" := title]>
             (<["summary" := summary]> ∅)))).
Proof.
  unfold analyze_news_article. unfold bind at 1.
  destruct (fetch_html url s) as [[html|e] s1] eqn:H1; [|done].
  unfold bind at 1, of_outcome. destruct (BeautifulSoup html) as [sp|e] eqn:Hsp; [|done].
  unfold bind at 1. destruct (media_source_of url s1) as [[ms|e] s2] eqn:H2; [|done].
  unfold bind at 1.
  destruct (title_of url sp s2) as [[[title art]|e] s3] eqn:H3; [|done].
  cbn [fst snd]. unfold bind at 1.
  destruct (summary_of sp s3) as [[summary|e] s4] eqn:H4; [|done].
  unfold bind at 1.
  destruct (resolve_date url sp art s4) as [[date|e] s5] eqn:H5; [|done].
  unfold ret. intros [= <- <-]. by eexists _, _, _, _, _, _, _, _, _, _, _.
Qed.

(** The date of the record is the value of the cascade on the fetched
    page and on the article of the title section. *)
Lemma analyze_date (url : str) (s s' : state) (rec : gmap string str) :
  analyze_news_article url s = (Ok rec, s') ->
  exists html s1 sp s2 title art s3 s4,
    fetch_html url s = (Ok html, s1) /\
    BeautifulSoup html = Ok sp /\
    title_of url sp s2 = (Ok (title, art), s3) /\
    rec !! "date" =
      Some (date_cascade (find_date url (st_world s4)).1 sp art url).
Proof.
  intros Hrun.
  apply analyze_inv in Hrun
    as (html & s1 & sp & ms & s2 & title & art & s3 & summary & s4 & date &
        H1 & Hsp & _ & H3 & _ & H5 & ->).
  exists html, s1, sp, s2, title, art, s3, s4. split_and!; [done|done|done|].
  rewrite resolve_date_run in H5. injection H5 as <- _.
  rewrite !lookup_insert_ne by done. apply lookup_insert_eq.
Qed.

(** The scraper raises only where the parse of the fetched text or the
    domain extraction does; when the parse raises, the fetch is the only
    call that was made. *)
Lemma analyze_total (url : str) (s : state) :
  match BeautifulSoup (match (requests_get_text url (st_world s)).1 with
                       | Ok html => html
                       | Raise _ => []
                       end) with
  | Raise e =>
      analyze_news_article url s =
        (Raise e, State (requests_get_text url (st_world s)).2 (st_calls s ++ [Call_get url]))
  | Ok _ =>
      match (tldextract_domain url (st_world (fetch_html url s).2)).1 with
      | Ok _ => exists rec s', analyze_news_article url s = (Ok rec, s')
      | Raise e =>
          analyze_news_article url s =
            (Raise e,
             State (tldextract_domain url (requests_get_text url (st_world s)).2).2
               (st_calls s ++ [Call_get url; Call_domain url]))
      end
  end.
Proof.
  rewrite (fetch_html_run url s). cbn [snd].
  set (s1 := State _ _).
  unfold analyze_news_article.
  erewrite bind_ok; [|apply fetch_html_run]. fold s1.
  set (html := match (requests_get_text url (st_world s)).1 with
               | Ok html => html | Raise _ => [] end).
  destruct (BeautifulSoup html) as [sp|e]; [|by erewrite bind_raise].
  pose proof (media_source_run url s1) as Hms.
  destruct ((tldextract_domain url (st_world s1)).1) as [domain|e];
    (erewrite bind_ok; [|reflexivity]).
  - erewrite bind_ok; [|exact Hms].
    destruct (title_of_never_raises url sp
                (State (tldextract_domain url (st_world s1)).2
                   (st_calls s1 ++ [Call_domain url]))) as (t & art & s3 & Ht).
    erewrite bind_ok; [|exact Ht]. cbn [fst snd].
    destruct (summary_of_never_raises sp s3) as (r & s4 & Hr).
    erewrite bind_ok; [|exact Hr].
    erewrite bind_ok; [|apply resolve_date_run].
    by eexists _, _.
  - erewrite bind_raise; [|exact Hms]. subst s1. cbn [st_calls st_world].
    by rewrite <- app_assoc.
Qed.

(** *** The title *)

(** C4, as the code has it. The structured pass that completes with a
    non-empty title gives that title stripped of surrounding whitespace;
    one that completes with an empty title gives "No Title Found" (the
    <title> tag is consulted only after an exception); when the structured
    pass raises, the title is the stripped text of the <title> tag of the
    fetched page, and "No Title Found" when the page has no such tag.  The
    title so chosen is passed through translation.  (A title or a <title>
    tag whose stripped text is empty is left aside here.) *)
Theorem title_selection (url : str) (sp : soup) (s : state) :
  let pass := (newspaper_article url (st_world s)).1 in
  let s1 := State (newspaper_article url (st_world s)).2
              (st_calls s ++ [Call_article url]) in
  exists chosen art,
    structured_title url sp s = (Ok (chosen, art), s1) /\
    title_of url sp s =
      (match (translate_text_if_needed chosen s1).1 with
       | Ok t => Ok (t, art)
       | Raise e => Raise e
       end, (translate_text_if_needed chosen s1).2) /\
    (forall a, pass = Pass_parsed a -> str_strip (art_title a) <> [] ->
               chosen = str_strip (art_title a)) /\
    (forall a, pass = Pass_parsed a -> art_title a = [] ->
               chosen = utf8 "No Title Found") /\
    (forall t, (forall a, pass <> Pass_parsed a) -> soup_title sp = Some t ->
               str_strip t <> [] -> chosen = str_strip t) /\
    ((forall a, pass <> Pass_parsed a) -> soup_title sp = None ->
     chosen = utf8 "No Title Found").
Proof.
  intros pass s1.
  assert (exists chosen art,
            structured_title url sp s = (Ok (chosen, art), s1) /\
            match pass with
            | Pass_parsed a =>
                chosen = if truthy (art_title a) then str_strip (art_title a)
                         else utf8 "No Title Found"
            | _ =>
                chosen = match soup_title sp with
                         | Some t => str_strip t
                         | None => utf8 "No Title Found"
                         end
            end) as (chosen & art & Hst & Hchosen).
  { subst pass s1. unfold structured_title, bind, observe, ret.
    destruct (newspaper_article url (st_world s)) as [[e|e a|a] w];
      cbn [fst snd]; by eexists _, _. }
  exists chosen, art. split_and!.
  - done.
  - unfold title_of. erewrite bind_ok; [|exact Hst]. cbn [fst snd]. unfold bind.
    by destruct (translate_text_if_needed chosen s1) as [[t|e] s2].
  - intros a Ha Hne. rewrite Ha in Hchosen. destruct (art_title a); [done|]. done.
  - intros a Ha Hempty. rewrite Ha in Hchosen. by rewrite Hempty in Hchosen.
  - intros t Hraised Ht _. destruct pass as [e|e a|a]; [| |by destruct (Hraised a)];
      by rewrite Ht in Hchosen.
  - intros Hraised Ht. destruct pass as [e|e a|a]; [| |by destruct (Hraised a)];
      by rewrite Ht in Hchosen.
Qed.

(** *** Publisher resolution *)

Lemma MEDIA_MAP_lookup (k v : str) :
  MEDIA_MAP !! k = Some v <->
  In (k, v) [
    (utf8 "manoramaonline", utf8 "Malayala Manorama");
    (utf8 "onmanorama", utf8 "Onmanorama");
    (utf8 "mathrubhumi", utf8 "Mathrubhumi News");
    (utf8 "asianetnews", utf8 "Asianet News");
    (utf8 "keralakaumudi", utf8 "Kerala Kaumudi");
    (utf8 "janmabhumi", utf8 "Janmabhumi");
    (utf8 "deshabhimani", utf8 "Deshabhimani");
    (utf8 "news18", utf8 "News18 Malayalam");
    (utf8 "thehindu", utf8 "The Hindu");
    (utf8 "timesofindia", utf8 "Times of India");
    (utf8 "indiatoday", utf8 "India Today")
  ].
Proof.
  unfold MEDIA_MAP. rewrite <- list_elem_of_In, <- elem_of_list_to_map; [done|].
  apply (bool_decide_unpack _). by vm_compute.
Qed.

(** C5. When the domain token of the URL, lower-cased, is a key of the
    publisher map, [media_source] is the mapped name; otherwise it is the
    lower-cased token capitalized.  The subdomain and suffix play no part
    (the token is all the lookup sees), and for a Basic Latin token the
    match is the one that ignores case. *)
Theorem media_source_lookup (url : str) (s s' : state) (rec : gmap string str) :
  analyze_news_article url s = (Ok rec, s') ->
  exists domain,
    (tldextract_domain url (st_world (fetch_html url s).2)).1 = Ok domain /\
    (forall name, MEDIA_MAP !! str_lower domain = Some name ->
                  rec !! "media_source" = Some name) /\
    (MEDIA_MAP !! str_lower domain = None ->
     rec !! "media_source" = Some (str_capitalize (str_lower domain))) /\
    (forallb is_ascii domain = true -> str_lower domain = map ascii_lower domain).
Proof.
  intros Hrun.
  apply analyze_inv in Hrun
    as (html & s1 & sp & ms & s2 & title & art & s3 & summary & s4 & date &
        H1 & _ & H2 & _ & _ & _ & ->).
  rewrite H1. cbn [snd]. rewrite media_source_run in H2.
  destruct ((tldextract_domain url (st_world s1)).1) as [domain|e]; [|done].
  injection H2 as <- _. exists domain. unfold publisher.
  rewrite lookup_insert_ne by done. rewrite lookup_insert_eq.
  split_and!; [done| | |].
  - by intros name ->.
  - by intros ->.
  - intros Hascii. unfold str_lower. by rewrite Hascii.
Qed.

(** *** The shape of the record *)

(** C9. The record that is returned has the five fields url,
    media_source, date, title and summary and no other, and its url is the
    URL that was passed in. *)
Theorem record_fields (url : str) (s s' : state) (rec : gmap string str) :
  analyze_news_article url s = (Ok rec, s') ->
  dom rec = {["url"; "media_source"; "date"; "title"; "summary"]} /\
  rec !! "url" = Some url.
Proof.
  intros Hrun.
  apply analyze_inv in Hrun
    as (html & s1 & sp & ms & s2 & title & art & s3 & summary & s4 & date &
        _ & _ & _ & _ & _ & _ & ->).
  split; [|apply lookup_insert_eq].
  rewrite !dom_insert_L, dom_empty_L. set_solver.
Qed.

(** *** Failures *)


(** *** The summary *)

Lemma extract_malayalam_text_empty (sp : soup) :
  (forall t, In t (soup_p sp) -> forall c, In c t -> ~ (0x0D00 <= c <= 0x0D7F)) ->
  extract_malayalam_text sp = [].
Proof.
  intros Hno. rewrite extract_malayalam_text_body. unfold malayalam_body.
  assert (List.filter has_malayalam (soup_p sp) = []) as ->; [|done].
  induction (soup_p sp) as [|t ps IH]; [done|]. cbn [List.filter].
  assert (has_malayalam t = false) as ->.
  { apply has_malayalam_false. apply Hno. by left. }
  apply IH. intros t' Ht'. apply Hno. by right.
Qed.

(** C8. When no paragraph of the fetched page has a character in
    U+0D00-U+0D7F, the summary of the record is "No readable Malayalam
    content found."; the summary section returns it without a call to the
    translation service, leaving the world and the log of calls as they
    were. *)
Theorem summary_sentinel (url html : str) (sp : soup) (s s1 s' : state)
    (rec : gmap string str) :
  fetch_html url s = (Ok html, s1) ->
  BeautifulSoup html = Ok sp ->
  (forall t, In t (soup_p sp) ->
             forall c, In c t -> ~ (0x0D00 <= c <= 0x0D7F)) ->
  analyze_news_article url s = (Ok rec, s') ->
  rec !! "summary" = Some (utf8 "No readable Malayalam content found.") /\
  (forall s0, summary_of sp s0 =
              (Ok (utf8 "No readable Malayalam content found."), s0)).
Proof.
  intros Hfetch Hparse Hno Hrun.
  assert (forall s0, summary_of sp s0 =
                     (Ok (utf8 "No readable Malayalam content found."), s0)) as Hsum.
  { intros s0. unfold summary_of. by rewrite (extract_malayalam_text_empty _ Hno). }
  split; [|done].
  apply analyze_inv in Hrun
    as (html' & s1' & sp' & ms & s2 & title & art & s3 & summary & s4 & date &
        H1 & Hsp & _ & _ & H4 & _ & ->).
  rewrite Hfetch in H1. injection H1 as <- <-.
  rewrite Hparse in Hsp. injection Hsp as <-.
  rewrite Hsum in H4. injection H4 as <- _.
  rewrite !lookup_insert_ne by done. apply lookup_insert_eq.
Qed.

End Pipeline.

(** * Runs on concrete inputs *)

(** ** The text functions *)

Example utf8_malayalam : utf8 "ഡിസം" = [0x0D21; 0x0D3F; 0x0D38; 0x0D02].
Proof. reflexivity. Qed.

Example str_replace_all :
  str_replace (utf8 "ab") (utf8 "X") (utf8 "abcabab-a") = utf8 "XcXX-a".
Proof. reflexivity. Qed.

Example str_strip_both : str_strip (utf8 "  Kerala news ") = utf8 "Kerala news".
Proof. reflexivity. Qed.

Example str_join_three :
  str_join (utf8 " ") [utf8 "a"; utf8 "b"; utf8 "c"] = utf8 "a b c".
Proof. reflexivity. Qed.

Example re_sub_plus_runs :
  re_sub_plus not_space_malayalam (utf8 " ") (utf8 "കേരളം, ഇന്ത്യ (2024).") =
  utf8 "കേരളം  ഇന്ത്യ  ".
Proof. reflexivity. Qed.

Example strptime_day_month_year :
  @strptime reference_platform (utf8 "7 December 2024") (utf8 "%d %B %Y") =
  Some (Date 2024 12 7).
Proof. reflexivity. Qed.

Example strptime_ignores_case_and_blanks :
  @strptime reference_platform (utf8 "07   DECEMBER,  2024") (utf8 "%d %B, %Y") =
  Some (Date 2024 12 7).
Proof. reflexivity. Qed.

Example strptime_rejects_rest :
  @strptime reference_platform (utf8 "7 December 2024 ") (utf8 "%d %B %Y") = None.
Proof. reflexivity. Qed.

Example strptime_rejects_day :
  @strptime reference_platform (utf8 "30-February-2024") (utf8 "%d-%B-%Y") = None /\
  @strptime reference_platform (utf8 "29-February-2024") (utf8 "%d-%B-%Y") =
    Some (Date 2024 2 29).
Proof. split; reflexivity. Qed.

Example strptime_malayalam_digits :
  @strptime reference_platform (utf8 "7 December ൨൦൨൪") (utf8 "%d %B %Y") =
  Some (Date 2024 12 7).
Proof. reflexivity. Qed.

Example extract_short_month :
  @extract_malayalam_date reference_platform (utf8 "7 ഡിസം 2024") = Some (utf8 "2024-12-07").
Proof. reflexivity. Qed.

(** ** The scraper *)


Lemma offline_run :
  @analyze_news_article reference_platform offline offline_url (@State offline tt []) =
  (Ok offline_record, @State offline tt offline_calls).
Proof. vm_compute. reflexivity. Qed.

Lemma english_run :
  @analyze_news_article reference_platform english offline_url (@State english tt []) =
  (Ok english_record,
   @State english tt
     [Call_get offline_url; Call_domain offline_url; Call_article offline_url;
      Call_find_date offline_url]).
Proof. vm_compute. reflexivity. Qed.

(** A page that cannot be parsed: the endpoint answers 500 with the text
    of the exception, and the domain extraction was not called. *)
Lemma unparsable_scrape :
  @scrape reference_platform unparsable offline_url (@State unparsable tt []) =
  (Ok (HTTPException 500 (exn_text unencodable)),
   @State unparsable tt [Call_get offline_url]).
Proof. vm_compute. reflexivity. Qed.

(** With no reachable network the endpoint still answers 200, with the
    sentinels and the date of the URL. *)
Lemma offline_scrape :
  @scrape reference_platform offline offline_url (@State offline tt []) =
  (Ok (JSONResponse offline_record), @State offline tt offline_calls).
Proof. vm_compute. reflexivity. Qed.

Lemma date_cascade_order_witness :
  (@resolve_date reference_platform inferring offline_url (Soup [] None []) None
     (@State inferring tt [])).1 = Ok (utf8 "2024-01-15") /\
  (@resolve_date reference_platform offline offline_url (Soup [] None []) None
     (@State offline tt [])).1 = Ok (utf8 "2024-12-07").
Proof.
  split.
  - apply (proj1 (proj2
             (@date_cascade_order reference_platform inferring offline_url
                (Soup [] None []) None (@State inferring tt [])))).
    reflexivity.
  - apply (proj1 (proj2 (proj2 (proj2 (proj2
             (@date_cascade_order reference_platform offline offline_url
                (Soup [] None []) None (@State offline tt []))))))); reflexivity.
Defined.

Lemma url_date_unvalidated_witness :
  let url := utf8 "https://example.com/news/2024/99/991" in
  exists pre0 y0 m0 d0,
    @date_segment_at reference_platform url pre0 y0 m0 d0 /\
    (@resolve_date reference_platform offline url (Soup [] None []) None
       (@State offline tt [])).1 = Ok (y0 ++ [chr "-"] ++ m0 ++ [chr "-"] ++ d0) /\
    y0 = utf8 "2024" /\ m0 = utf8 "99" /\ d0 = utf8 "99".
Proof.
  intros url.
  destruct (@url_date_unvalidated reference_platform offline url (Soup [] None []) None
              (@State offline tt []) eq_refl eq_refl eq_refl) as (Hres & Hseg & _).
  destruct (Hseg (utf8 "https://example.com/news") (utf8 "2024") (utf8 "99") (utf8 "99"))
    as (pre0 & y0 & m0 & d0 & H0 & Hleast & Hdate & Heq).
  { exists (chr "/"), (chr "/"), (utf8 "1"). split_and!; try reflexivity.
    - repeat constructor.
    - by left.
    - by left. }
  assert (utf8 "2024" ++ [chr "-"] ++ utf8 "99" ++ [chr "-"] ++ utf8 "99" =
          y0 ++ [chr "-"] ++ m0 ++ [chr "-"] ++ d0) as Hgroups.
  { rewrite Hres in Hdate. by injection Hdate. }
  destruct H0 as (s1 & s2 & post & Hurl & Hy & Hm & Hd & Hrest).
  apply app_inj_1 in Hgroups as [<- Hgroups]; [|by rewrite Hy].
  apply (app_inj_1 [chr "-"] [chr "-"]) in Hgroups as [_ Hgroups]; [|done].
  apply app_inj_1 in Hgroups as [<- Hgroups]; [|by rewrite Hm].
  apply (app_inj_1 [chr "-"] [chr "-"]) in Hgroups as [_ <-]; [|done].
  exists pre0, (utf8 "2024"), (utf8 "99"), (utf8 "99").
  split_and!; [by exists s1, s2, post|done|done|done|done].
Defined.

Lemma media_source_lookup_witness :
  @analyze_news_article reference_platform offline offline_url (@State offline tt []) =
    (Ok offline_record, @State offline tt offline_calls) /\
  offline_record !! "media_source" = Some (utf8 "Malayala Manorama").
Proof.
  split; [exact offline_run|].
  destruct (@media_source_lookup reference_platform offline offline_url _ _ _ offline_run)
    as (domain & Hd & Hmap & _).
  apply Hmap. injection Hd as <-. reflexivity.
Defined.

Lemma record_fields_witness :
  dom offline_record = {["url"; "media_source"; "date"; "title"; "summary"]} /\
  offline_record !! "url" = Some offline_url.
Proof.
  exact (@record_fields reference_platform offline offline_url _ _ _ offline_run).
Defined.

Lemma summary_sentinel_witness :
  english_record !! "summary" = Some (utf8 "No readable Malayalam content found.").
Proof.
  refine (proj1 (@summary_sentinel reference_platform english offline_url
                   (utf8 "<p>Kerala news</p><p>2024.</p>") english_page
                   (@State english tt []) (@State english tt [Call_get offline_url])
                   _ english_record eq_refl eq_refl _ english_run)).
  intros t [<-|[<-|[]]] c Hc; vm_compute in Hc;
    repeat (destruct Hc as [<-|Hc]; [vm_compute; intros [Hlo _]; by apply Hlo|]);
    destruct Hc.
Defined.

Lemma title_selection_witness :
  exists art,
    (@structured_title titled offline_url titled_page (@State titled tt [])).1 =
      Ok (utf8 "Kerala budget 2024", art).
Proof.
  destruct (@title_selection titled offline_url titled_page (@State titled tt []))
    as (chosen & art & Hst & _ & Hparsed & _).
  exists art. rewrite Hst. cbn [fst].
  rewrite (Hparsed (Article (utf8 "  Kerala budget 2024 ") Pd_none)); [reflexivity|reflexivity|].
  vm_compute. discriminate.
Defined.

(** C4 does not hold as written.  The structured pass raises and the page
    has an empty <title> tag: neither yields text, and the title is the
    empty string, not "No Title Found".  The structured pass gives a title
    with blanks around it: the title is not that text but the stripped
    one.  The structured pass completes with an empty title and the page
    has a <title>: the title is "No Title Found", not the text of the
    tag. *)
Lemma title_not_as_claimed :
  let empty_title := Soup [] (Some []) [] in
  (@newspaper_article offline offline_url tt).1 =
    Pass_raised unreachable (Article [] Pd_none) /\
  soup_title empty_title = Some [] /\
  (@title_of offline offline_url empty_title (@State offline tt [])).1 =
    Ok ([], Some (Article [] Pd_none)) /\
  [] <> utf8 "No Title Found" /\
  (@newspaper_article titled offline_url tt).1 =
    Pass_parsed (Article (utf8 "  Kerala budget 2024 ") Pd_none) /\
  (@title_of titled offline_url titled_page (@State titled tt [])).1 =
    Ok (utf8 "Kerala budget 2024", Some (Article (utf8 "  Kerala budget 2024 ") Pd_none)) /\
  utf8 "Kerala budget 2024" <> utf8 "  Kerala budget 2024 " /\
  (@newspaper_article untitled offline_url tt).1 = Pass_parsed (Article [] Pd_none) /\
  soup_title titled_page = Some (utf8 " Kerala ") /\
  (@title_of untitled offline_url titled_page (@State untitled tt [])).1 =
    Ok (utf8 "No Title Found", Some (Article [] Pd_none)).
Proof. vm_compute. repeat split; congruence. Qed.

Lemma malayalam_date_whole_text_witness :
  @extract_malayalam_date reference_platform (utf8 "12-ജനുവരി-2023") = Some (utf8 "2023-01-12") /\
  @extract_malayalam_date reference_platform (utf8 "Kerala") = None.
Proof.
  pose proof (@malayalam_date_whole_text reference_platform) as (_ & _ & Hfirst & Hnone & _).
  split.
  - apply (Hfirst (utf8 "12-ജനുവരി-2023") 0%nat 1%nat (utf8 "ജനുവരി") (utf8 "January")
             (utf8 "%d-%B-%Y") (Date 2023 1 12)); try reflexivity.
    intros i' j' ml' eng' fmt' [Hlt|[-> Hlt]] Hi' Hj' _; [lia|].
    destruct j' as [|j']; [|lia].
    injection Hi' as <- <-. injection Hj' as <-. reflexivity.
  - apply Hnone. intros ml eng fmt Hin _ Hocc.
    repeat (destruct Hin as [[= <- <-]|Hin]; [vm_compute in Hocc; discriminate Hocc|]).
    destruct Hin.
Defined.

(** C2 does not hold as written: the date is in the text, but the text as
    a whole is not that date, so it is not what is extracted. *)
Lemma malayalam_date_not_found_inside_text :
  str_in (utf8 "7 ഡിസംബർ 2024") (utf8 "Updated: 7 ഡിസംബർ 2024 10:30") = true /\
  @extract_malayalam_date reference_platform (utf8 "Updated: 7 ഡിസംബർ 2024 10:30") = None /\
  str_in (utf8 "7 ഡിസംബർ 2024") (utf8 "7 ഡിസംബർ 2024.") = true /\
  @extract_malayalam_date reference_platform (utf8 "7 ഡിസംബർ 2024.") = None /\
  str_in (utf8 "7 ഡിസംബർ 2024") (utf8 "17 ഡിസംബർ 2024") = true /\
  @extract_malayalam_date reference_platform (utf8 "17 ഡിസംബർ 2024") = Some (utf8 "2024-12-17").
Proof. vm_compute. repeat split. Qed.

(** C10 does not hold as written.  The URL contains /2024/99/99, but an
    earlier segment has the shape too and it is the one that is read; and
    two digits of the month that sit in a longer run of digits are not
    matched, since a separator has to follow them. *)
Lemma url_date_not_as_claimed :
  let url := utf8 "https://example.com/2023/01/01/2024/99/99" in
  str_in (utf8 "/2024/99/99") url = true /\
  (@resolve_date reference_platform offline url (Soup [] None []) None
     (@State offline tt [])).1 = Ok (utf8 "2023-01-01") /\
  utf8 "2023-01-01" <> utf8 "2024-99-99" /\
  (@resolve_date reference_platform offline (utf8 "https://example.com/2024/123/07")
     (Soup [] None []) None (@State offline tt [])).1 = Ok (utf8 "Date Not Found").
Proof. vm_compute. repeat split; congruence. Qed.

(** * Further properties of the code *)

(** ** The calls a run makes *)

Section Calls.
Context {P : Platform} {S : Services}.

Lemma translate_calls (text : str) (s : state) :
  exists r s',
    translate_text_if_needed text s = (Ok r, s') /\
    (st_calls s' = st_calls s \/
     (st_calls s' = st_calls s ++ [Call_translate text] /\ has_malayalam text = true)).
Proof.
  unfold translate_text_if_needed.
  destruct (truthy text && has_malayalam text) eqn:Hg.
  - apply andb_true_iff in Hg as [_ Hm].
    unfold try_except, invoke, ret.
    destruct (GoogleTranslator_translate text (st_world s)) as [[r|e] w];
      eexists _, _; (split; [reflexivity|]); right; by split.
  - eexists _, _. split; [reflexivity|]. by left.
Qed.

Lemma title_of_inv (url : str) (sp : soup) (s s' : state) (title : str)
    (art : option article) :
  title_of url sp s = (Ok (title, art), s') ->
  exists chosen s1,
    structured_title url sp s = (Ok (chosen, art), s1) /\
    st_calls s1 = st_calls s ++ [Call_article url] /\
    translate_text_if_needed chosen s1 = (Ok title, s').
Proof.
  unfold title_of.
  destruct (structured_title_run url sp s) as (chosen & art0 & Hst).
  erewrite bind_ok; [|exact Hst]. cbn [fst snd]. unfold bind at 1.
  destruct (translate_text_if_needed chosen _) as [[t|e] s2] eqn:Ht; [|done].
  unfold ret. intros [= <- <- <-]. eexists _, _. split_and!; [exact Hst|done|done].
Qed.

(** A run that returns has called, in this order, the page fetch, the
    domain extraction, the structured pass and the date inference, each
    once and each with the URL as it came in; between the structured pass
    and the date inference lie at most two calls to the translation
    service, each on a text that has a Malayalam character. *)
Theorem calls_of_a_returning_run (url : str) (s s' : state) (rec : gmap string str) :
  analyze_news_article url s = (Ok rec, s') ->
  exists translations,
    st_calls s' =
      st_calls s ++ [Call_get url; Call_domain url; Call_article url] ++
      translations ++ [Call_find_date url] /\
    (length translations <= 2)%nat /\
    (forall c, In c translations ->
               exists text, c = Call_translate text /\ has_malayalam text = true).
Proof.
  intros Hrun.
  apply analyze_inv in Hrun
    as (html & s1 & sp & ms & s2 & title & art & s3 & summary & s4 & date &
        H1 & _ & H2 & H3 & H4 & H5 & _).
  rewrite fetch_html_run in H1. injection H1 as _ <-.
  rewrite media_source_run in H2. injection H2 as _ <-.
  apply title_of_inv in H3 as (chosen & s2' & _ & Hc2 & Ht).
  destruct (translate_calls chosen s2') as (r1 & s3' & Ht' & Hc3).
  rewrite Ht in Ht'. injection Ht' as _ <-.
  assert (exists r s5, summary_of sp s3 = (Ok r, s5) /\
            (st_calls s5 = st_calls s3 \/
             exists text, st_calls s5 = st_calls s3 ++ [Call_translate text] /\
                          has_malayalam text = true)) as (r2 & s5 & Hs & Hc4).
  { unfold summary_of. destruct (truthy (extract_malayalam_text sp)).
    - destruct (translate_calls (extract_malayalam_text sp) s3)
        as (r & s5 & Hr & [Hc|Hc]); exists r, s5; (split; [done|]); [by left|].
      right. by eexists.
    - eexists _, _. split; [reflexivity|]. by left. }
  rewrite Hs in H4. injection H4 as _ <-.
  rewrite resolve_date_run in H5. injection H5 as _ <-. cbn [st_calls] in *.
  destruct Hc3 as [Hc3|[Hc3 Hm1]], Hc4 as [Hc4|(text & Hc4 & Hm2)];
    rewrite Hc4, Hc3, Hc2.
  - exists []. split_and!; [by rewrite <- !app_assoc|cbn; lia|by intros c []].
  - exists [Call_translate text]. split_and!; [by rewrite <- !app_assoc|cbn; lia|].
    intros c [<-|[]]. by eexists.
  - exists [Call_translate chosen]. split_and!; [by rewrite <- !app_assoc|cbn; lia|].
    intros c [<-|[]]. by eexists.
  - exists [Call_translate chosen; Call_translate text].
    split_and!; [by rewrite <- !app_assoc|cbn; lia|].
    intros c [<-|[<-|[]]]; by eexists.
Qed.

(** A run that raises stopped at one of the two steps that are not
    guarded.  Either the parse of the fetched text (of the empty text when
    the fetch failed) raised the exception, and the fetch is the only call
    that was made; or the text was parsed, the domain extraction was
    called and raised the exception, and nothing else was called. *)
Theorem calls_of_a_raising_run (url : str) (s s' : state) (e : exn) :
  analyze_news_article url s = (Raise e, s') ->
  let html := match (requests_get_text url (st_world s)).1 with
              | Ok html => html
              | Raise _ => []
              end in
  (BeautifulSoup html = Raise e /\
   st_calls s' = st_calls s ++ [Call_get url]) \/
  ((exists sp, BeautifulSoup html = Ok sp) /\
   st_calls s' = st_calls s ++ [Call_get url; Call_domain url] /\
   (tldextract_domain url (requests_get_text url (st_world s)).2).1 = Raise e).
Proof.
  intros Hrun html. pose proof (analyze_total url s) as Ht. fold html in Ht.
  rewrite (fetch_html_run url s) in Ht. cbn [snd st_world] in Ht.
  destruct (BeautifulSoup html) as [sp|e0].
  - right.
    destruct ((tldextract_domain url (requests_get_text url (st_world s)).2).1)
      as [domain|e0].
    + destruct Ht as (rec & s0 & Ht). rewrite Ht in Hrun. done.
    + rewrite Ht in Hrun. injection Hrun as <- <-. split_and!; [by exists sp|done|done].
  - left. rewrite Ht in Hrun. injection Hrun as <- <-. done.
Qed.

End Calls.

Lemma calls_of_a_returning_run_witness :
  exists translations,
    offline_calls =
      [] ++ [Call_get offline_url; Call_domain offline_url; Call_article offline_url] ++
      translations ++ [Call_find_date offline_url] /\
    (length translations <= 2)%nat /\
    (forall c, In c translations ->
               exists text, c = Call_translate text /\ has_malayalam text = true).
Proof.
  exact (@calls_of_a_returning_run reference_platform offline offline_url _ _ _ offline_run).
Defined.

Lemma calls_of_a_raising_run_witness :
  st_calls (@analyze_news_article reference_platform domainless offline_url
              (@State domainless tt [])).2 =
    [Call_get offline_url; Call_domain offline_url] /\
  st_calls (@analyze_news_article reference_platform unparsable offline_url
              (@State unparsable tt [])).2 =
    [Call_get offline_url].
Proof.
  split.
  - destruct (@calls_of_a_raising_run reference_platform domainless offline_url
                (@State domainless tt []) _ malformed eq_refl) as [[Hp _]|(_ & Hc & _)].
    + discriminate Hp.
    + exact Hc.
  - destruct (@calls_of_a_raising_run reference_platform unparsable offline_url
                (@State unparsable tt []) _ unencodable eq_refl) as [[_ Hc]|[[sp Hp] _]].
    + exact Hc.
    + discriminate Hp.
Defined.

(** ** The date that is returned *)

Section DateValue.
Context {P : Platform} {S : Services}.

Lemma first_value_truthy (tiers : list (option str)) (v : str) :
  first_value tiers = Some v -> truthy v = true.
Proof.
  induction tiers as [|t tiers IH]; [done|]. cbn [first_value].
  destruct (opt_truthy t) eqn:Ht; [|exact IH]. intros ->. exact Ht.
Qed.

Lemma date_cascade_truthy (found : outcome (option str)) (sp : soup)
    (art : option article) (url : str) :
  truthy (date_cascade found sp art url) = true.
Proof.
  unfold date_cascade.
  destruct (first_value _) as [v|] eqn:Hv; [|done].
  exact (first_value_truthy _ _ Hv).
Qed.

(** The date of the record is never the empty string, also when the date
    inference answers with an empty string or the metadata date does not
    format: an empty value counts as no value, and the last resort is
    "Date Not Found". *)
Theorem date_never_empty (url : str) (s s' : state) (rec : gmap string str) :
  analyze_news_article url s = (Ok rec, s') ->
  exists date, rec !! "date" = Some date /\ date <> [].
Proof.
  intros Hrun.
  apply analyze_date in Hrun as (html & s1 & sp & s2 & title & art & s3 & s4 & _ & _ & _ & Hd).
  eexists. split; [exact Hd|].
  pose proof (date_cascade_truthy (find_date url (st_world s4)).1 sp art url).
  by destruct (date_cascade _ _ _ _).
Qed.

(** A date read off the URL is ten characters long: four digits, a
    hyphen, two digits, a hyphen, two digits, whatever separators the URL
    has. *)
Theorem url_path_date_shape (url r : str) :
  url_path_date url = Some r ->
  exists y m d,
    r = y ++ [chr "-"] ++ m ++ [chr "-"] ++ d /\
    length y = 4%nat /\ length m = 2%nat /\ length d = 2%nat /\
    Forall (fun c => is_digit c = true) (y ++ m ++ d) /\
    length r = 10%nat.
Proof.
  unfold url_path_date.
  destruct (re_search url_date_pattern url) as [mt|] eqn:Hs; [|done].
  intros [= <-].
  apply re_search_Some in Hs as (pre & post & Hurl & Hmt & _).
  assert (date_segment_at url pre (take 4 (drop 1 mt)) (take 2 (drop 6 mt))
            (take 2 (drop 9 mt))) as (s1 & s2 & post' & _ & Hy & Hm & Hd & Hdig & _).
  { apply segment_match. by exists (mt ++ post), mt. }
  exists (take 4 (drop 1 mt)), (take 2 (drop 6 mt)), (take 2 (drop 9 mt)).
  split_and!; [done|done|done|done|done|].
  repeat first [rewrite length_app | progress cbn [length]].
  rewrite Hy, Hm, Hd. done.
Qed.

(** The URL tier has a value exactly when the URL has a date-shaped
    segment. *)
Theorem url_path_date_none_iff (url : str) :
  url_path_date url = None <->
  ~ exists pre y m d, date_segment_at url pre y m d.
Proof.
  split.
  - intros Hnone (pre & y & m & d & Hseg).
    apply url_path_date_leftmost in Hseg as (pre0 & y0 & m0 & d0 & _ & _ & Hv & _).
    congruence.
  - intros Hno. unfold url_path_date.
    destruct (re_search url_date_pattern url) as [mt|] eqn:Hs; [|done].
    destruct Hno.
    apply re_search_Some in Hs as (pre & post & Hurl & Hmt & _).
    exists pre, (take 4 (drop 1 mt)), (take 2 (drop 6 mt)), (take 2 (drop 9 mt)).
    apply segment_match. by exists (mt ++ post), mt.
Qed.

End DateValue.

Lemma date_never_empty_witness :
  exists date, offline_record !! "date" = Some date /\ date <> [].
Proof.
  exact (@date_never_empty reference_platform offline offline_url _ _ _ offline_run).
Defined.

Lemma url_path_date_shape_witness :
  exists y m d,
    utf8 "2024-12-07" = y ++ [chr "-"] ++ m ++ [chr "-"] ++ d /\
    length y = 4%nat /\ length m = 2%nat /\ length d = 2%nat /\
    Forall (fun c => @is_digit reference_platform c = true) (y ++ m ++ d) /\
    length (utf8 "2024-12-07") = 10%nat.
Proof.
  apply (@url_path_date_shape reference_platform offline_url). reflexivity.
Defined.

Lemma url_path_date_none_iff_witness :
  ~ exists pre y m d,
      @date_segment_at reference_platform (utf8 "https://www.thehindu.com/news/2024/kerala")
        pre y m d.
Proof.
  apply (proj1 (@url_path_date_none_iff reference_platform _)). reflexivity.
Defined.

(** ** Prefixes, occurrences and stripping *)

Lemma is_prefix_spec (p s : str) :
  is_prefix p s = true <-> exists post, s = p ++ post.
Proof.
  revert s. induction p as [|a p IH]; intros s; cbn [is_prefix].
  - split; [by exists s|done].
  - destruct s as [|b s'].
    + split; [done|]. by intros [post Hs].
    + rewrite andb_true_iff, N.eqb_eq, IH. split.
      * intros [-> [post ->]]. by exists post.
      * intros [post [= -> ->]]. split; [done|by exists post].
Qed.

Lemma str_in_spec (sub s : str) :
  str_in sub s = true <-> exists pre post, s = pre ++ sub ++ post.
Proof.
  induction s as [|c s' IH]; cbn [str_in]; rewrite orb_true_iff, is_prefix_spec.
  - split.
    + intros [[post Hs]|?]; [|done]. by exists [], post.
    + intros (pre & post & Hs). left. destruct pre; [by exists post|done].
  - rewrite IH. split.
    + intros [[post Hs]|(pre & post & ->)]; [by exists [], post|].
      by exists (c :: pre), post.
    + intros (pre & post & Hs). destruct pre as [|c' pre].
      * left. by exists post.
      * injection Hs as -> ->. right. by exists pre, post.
Qed.

Lemma has_malayalam_app (a b : str) :
  has_malayalam (a ++ b) = has_malayalam a || has_malayalam b.
Proof. rewrite !has_malayalam_existsb. apply existsb_app. Qed.

Section Strip.
Variable f : char -> bool.

Lemma drop_while_split (s : str) :
  exists pre, s = pre ++ drop_while f s /\ (forall c, In c pre -> f c = true).
Proof.
  induction s as [|c s' (pre & Hs & Hpre)]; [by exists []|].
  cbn [drop_while]. destruct (f c) eqn:Hc.
  - exists (c :: pre). split; [by rewrite Hs at 1|].
    intros x [<-|Hx]; [done|by apply Hpre].
  - by exists [].
Qed.

Lemma drop_while_head (s r : str) (x : char) :
  drop_while f s = x :: r -> f x = false.
Proof.
  induction s as [|c s' IH]; [done|]. cbn [drop_while].
  destruct (f c) eqn:Hc; [exact IH|]. by intros [= <- _].
Qed.

Lemma drop_while_fixed (x : char) (s : str) :
  f x = false -> drop_while f (x :: s) = x :: s.
Proof. intros Hx. cbn [drop_while]. by rewrite Hx. Qed.

Lemma drop_while_filter (g : char -> bool) (s : str) :
  (forall c, f c = true -> g c = false) ->
  List.filter g (drop_while f s) = List.filter g s.
Proof.
  intros Hfg. induction s as [|c s' IH]; [done|]. cbn [drop_while List.filter].
  destruct (f c) eqn:Hc; [|done]. by rewrite (Hfg c Hc).
Qed.

Lemma filter_rev (g : char -> bool) (s : str) :
  List.filter g (rev s) = rev (List.filter g s).
Proof.
  induction s as [|c s' IH]; [done|]. cbn [rev List.filter].
  rewrite List.filter_app, IH. cbn [List.filter]. destruct (g c); [done|].
  by rewrite app_nil_r.
Qed.

Lemma strip_both_filter (g : char -> bool) (s : str) :
  (forall c, f c = true -> g c = false) ->
  List.filter g (strip_both f s) = List.filter g s.
Proof.
  intros Hfg. unfold strip_both.
  rewrite filter_rev, (drop_while_filter g _ Hfg), filter_rev, rev_involutive.
  by apply drop_while_filter.
Qed.

Lemma strip_both_incl (s : str) (c : char) : In c (strip_both f s) -> In c s.
Proof.
  unfold strip_both. intros Hc.
  by apply in_rev, drop_while_incl, in_rev, drop_while_incl in Hc.
Qed.

(** What is left after stripping is empty, or begins and ends with a
    character that [f] refuses. *)
Lemma strip_both_ends (s : str) :
  strip_both f s = [] \/
  exists a rest z front,
    strip_both f s = a :: rest /\ strip_both f s = front ++ [z] /\
    f a = false /\ f z = false.
Proof.
  unfold strip_both.
  destruct (drop_while f (rev (drop_while f s))) as [|z w] eqn:Hw; [by left|].
  right. pose proof (drop_while_head _ _ _ Hw) as Hz.
  destruct (drop_while_split (rev (drop_while f s))) as (pre & Hrev & _).
  rewrite Hw in Hrev.
  apply (f_equal (@rev N)) in Hrev. rewrite rev_involutive, rev_app_distr in Hrev.
  cbn [rev] in *.
  destruct (rev w) as [|a r] eqn:Hr.
  - cbn [app] in *. exists z, [], z, []. split_and!; done.
  - cbn [app] in Hrev. exists a, (r ++ [z]), z, (a :: r).
    split_and!; [done|done| |done].
    apply (drop_while_head s ((r ++ [z]) ++ rev pre) a). by rewrite Hrev.
Qed.

Lemma strip_both_fixed (a z : char) (rest front : str) :
  a :: rest = front ++ [z] -> f a = false -> f z = false ->
  strip_both f (a :: rest) = a :: rest.
Proof.
  intros Heq Ha Hz. unfold strip_both.
  rewrite (drop_while_fixed a rest Ha). rewrite Heq at 1.
  rewrite rev_app_distr. cbn [rev app].
  rewrite (drop_while_fixed z _ Hz).
  change (z :: rev front) with (rev [z] ++ rev front).
  by rewrite <- rev_app_distr, rev_involutive.
Qed.

Lemma strip_both_idempotent (s : str) :
  strip_both f (strip_both f s) = strip_both f s.
Proof.
  destruct (strip_both_ends s) as [->|(a & rest & z & front & Ha & Hz & Hfa & Hfz)]; [done|].
  rewrite Ha. apply (strip_both_fixed a z rest front); [|done|done]. by rewrite <- Ha.
Qed.

End Strip.

(** ** What body extraction keeps *)

Lemma squash_runs_filter (g : char -> bool) (cls : char -> bool) (c0 : char)
    (b : bool) (s : str) :
  g c0 = false -> (forall c, cls c = true -> g c = false) ->
  List.filter g (squash_runs cls [c0] b s) = List.filter g s.
Proof.
  intros H0 Hcls. revert b. induction s as [|c s' IH]; intros b; [done|].
  cbn [squash_runs List.filter]. destruct (cls c) eqn:Hc.
  - rewrite (Hcls c Hc), List.filter_app, IH.
    destruct b; cbn [List.filter]; [done|]. by rewrite H0.
  - cbn [List.filter]. by rewrite IH.
Qed.

Lemma squash_runs_clean (cls : char -> bool) (repl : str) (s : str) :
  (forall c, In c s -> cls c = false) -> squash_runs cls repl false s = s.
Proof.
  induction s as [|c s' IH]; intros Hs; [done|]. cbn [squash_runs].
  rewrite (Hs c) by by left. f_equal. apply IH. intros x Hx. apply Hs. by right.
Qed.

Lemma filter_str_join (g : char -> bool) (sep : str) (l : list str) :
  List.filter g sep = [] ->
  List.filter g (str_join sep l) = concat (map (List.filter g) l).
Proof.
  intros Hsep. induction l as [|x l IH]; [done|]. cbn [str_join map concat].
  destruct l as [|y l'].
  - cbn [map concat]. by rewrite app_nil_r.
  - rewrite !List.filter_app, Hsep, IH. done.
Qed.

Lemma filter_malayalam_none (t : str) :
  has_malayalam t = false -> List.filter is_malayalam t = [].
Proof.
  rewrite has_malayalam_existsb. induction t as [|c t IH]; [done|].
  cbn [existsb List.filter]. destruct (is_malayalam c); [done|]. exact IH.
Qed.

Lemma filter_malayalam_some (t : str) :
  has_malayalam t = true -> List.filter is_malayalam t <> [].
Proof.
  rewrite has_malayalam_existsb. induction t as [|c t IH]; [done|].
  cbn [existsb List.filter]. destruct (is_malayalam c); [done|]. exact IH.
Qed.

Lemma space_not_malayalam (c : char) : is_chr " " c = true -> is_malayalam c = false.
Proof. intros Hc. apply is_chr_true in Hc as ->. reflexivity. Qed.

Lemma foreign_not_malayalam (c : char) :
  not_space_malayalam c = true -> is_malayalam c = false.
Proof.
  unfold not_space_malayalam. intros Hc.
  apply negb_true_iff, orb_false_iff in Hc as [_ Hc]. exact Hc.
Qed.

(** The text of one kept paragraph. *)
Lemma clean_paragraph_filter (t : str) :
  List.filter is_malayalam
    (trim_spaces (squash_runs not_space_malayalam [chr " "] false t)) =
  List.filter is_malayalam t.
Proof.
  change (trim_spaces ?s) with (strip_both (is_chr " ") s).
  rewrite (strip_both_filter _ _ _ space_not_malayalam).
  apply squash_runs_filter; [reflexivity|apply foreign_not_malayalam].
Qed.

Lemma clean_paragraph_ends (t : str) :
  has_malayalam t = true ->
  exists a rest z front,
    trim_spaces (squash_runs not_space_malayalam [chr " "] false t) = a :: rest /\
    trim_spaces (squash_runs not_space_malayalam [chr " "] false t) = front ++ [z] /\
    is_malayalam a = true /\ is_malayalam z = true.
Proof.
  intros Ht.
  change (trim_spaces ?s) with (strip_both (is_chr " ") s).
  set (e := strip_both _ _).
  assert (forall c, In c e -> is_chr " " c = false -> is_malayalam c = true) as Halpha.
  { intros c Hc Hsp. subst e.
    apply (strip_both_incl (is_chr " ")) in Hc.
    apply squash_runs_alphabet in Hc as [->|[_ Hc]]; [done|].
    unfold not_space_malayalam in Hc. apply negb_false_iff, orb_true_iff in Hc as [Hc|Hc];
      [|done]. unfold is_chr in Hsp. congruence. }
  destruct (strip_both_ends (is_chr " ")
              (squash_runs not_space_malayalam [chr " "] false t))
    as [Hempty|(a & rest & z & front & Ha & Hz & Hfa & Hfz)]; fold e in Hempty || fold e in Ha, Hz.
  - pose proof (clean_paragraph_filter t) as Hf.
    change (trim_spaces ?s) with (strip_both (is_chr " ") s) in Hf.
    fold e in Hf. rewrite Hempty in Hf. by destruct (filter_malayalam_some t Ht).
  - exists a, rest, z, front. split_and!; [done|done| |].
    + apply Halpha; [rewrite Ha; by left|done].
    + apply Halpha; [rewrite Hz; apply in_or_app; right; by left|done].
Qed.

Lemma str_join_ends (sep : str) (l : list str) (good : char -> bool) :
  l <> [] ->
  (forall e, In e l ->
     exists a rest z front,
       e = a :: rest /\ e = front ++ [z] /\ good a = true /\ good z = true) ->
  exists a rest z front,
    str_join sep l = a :: rest /\ str_join sep l = front ++ [z] /\
    good a = true /\ good z = true.
Proof.
  induction l as [|e l IH]; [done|]. intros _ Hgood.
  destruct (Hgood e) as (a & rest & z & front & Ha & Hz & Hga & Hgz); [by left|].
  cbn [str_join]. destruct l as [|e' l'].
  - by exists a, rest, z, front.
  - destruct IH as (a' & rest' & z' & front' & Ha' & Hz' & _ & Hgz');
      [done|intros x Hx; apply Hgood; by right|].
    exists a, (rest ++ sep ++ str_join sep (e' :: l')), z',
           (e ++ sep ++ front').
    split_and!; [by rewrite Ha|by rewrite Hz', !app_assoc|done|done].
Qed.

Lemma filter_nothing (h : str -> bool) (l : list str) :
  (forall t, In t l -> h t = false) -> List.filter h l = [].
Proof.
  induction l as [|t l IH]; intros Hno; [done|]. cbn [List.filter].
  rewrite (Hno t) by by left. apply IH. intros t' Ht'. apply Hno. by right.
Qed.

(** No Malayalam character of the page's paragraphs is lost, added or
    moved: the Malayalam characters of what is extracted are those of the
    paragraphs, in document order. *)
Theorem extract_malayalam_text_keeps_malayalam (sp : soup) :
  List.filter is_malayalam (extract_malayalam_text sp) =
  List.filter is_malayalam (concat (soup_p sp)).
Proof.
  rewrite extract_malayalam_text_body. unfold malayalam_body.
  rewrite filter_str_join by reflexivity.
  induction (soup_p sp) as [|t ps IH]; [done|].
  cbn [List.filter concat]. rewrite List.filter_app.
  destruct (has_malayalam t) eqn:Ht.
  - cbn [map concat]. by rewrite clean_paragraph_filter, IH.
  - by rewrite (filter_malayalam_none t Ht), IH.
Qed.

Lemma malayalam_body_ends (ps : list str) :
  List.filter has_malayalam ps <> [] ->
  exists a rest z front,
    malayalam_body ps = a :: rest /\
    malayalam_body ps = front ++ [z] /\
    is_malayalam a = true /\ is_malayalam z = true.
Proof.
  intros Hkept. unfold malayalam_body.
  apply str_join_ends; [by destruct (List.filter has_malayalam ps)|].
  intros e He. apply in_map_iff in He as (t & <- & Ht).
  apply filter_In in Ht as [_ Ht]. by apply clean_paragraph_ends.
Qed.

Lemma extracted_ends (sp : soup) :
  extract_malayalam_text sp <> [] ->
  exists a rest z front,
    extract_malayalam_text sp = a :: rest /\
    extract_malayalam_text sp = front ++ [z] /\
    is_malayalam a = true /\ is_malayalam z = true.
Proof.
  rewrite extract_malayalam_text_body. intros Hne. apply malayalam_body_ends.
  intros Hk. apply Hne. unfold malayalam_body. by rewrite Hk.
Qed.

(** What is extracted is empty exactly when no paragraph has a Malayalam
    character; otherwise it begins and ends with a Malayalam character, so
    it has no blank at either end. *)
Theorem extract_malayalam_text_ends (sp : soup) :
  (extract_malayalam_text sp = [] <->
   forall t, In t (soup_p sp) -> has_malayalam t = false) /\
  (extract_malayalam_text sp <> [] ->
   exists a rest z front,
     extract_malayalam_text sp = a :: rest /\
     extract_malayalam_text sp = front ++ [z] /\
     is_malayalam a = true /\ is_malayalam z = true).
Proof.
  rewrite extract_malayalam_text_body.
  pose proof (malayalam_body_ends (soup_p sp)) as Hends.
  unfold malayalam_body in *.
  set (kept := List.filter has_malayalam (soup_p sp)) in *.
  split.
  - split.
    + intros Hempty t Ht. destruct (has_malayalam t) eqn:Hm; [|done].
      destruct Hends as (a & rest & _ & _ & Ha & _).
      * intros Hk. assert (In t kept) as Hin by (apply filter_In; by split).
        rewrite Hk in Hin. destruct Hin.
      * congruence.
    + intros Hno. assert (kept = []) as ->; [|done].
      subst kept. by apply filter_nothing.
  - intros Hne. apply Hends. intros Hk. by rewrite Hk in Hne.
Qed.

(** Extraction is idempotent: a page whose one paragraph is the text that
    was extracted gives that text again. *)
Theorem extract_malayalam_text_idempotent (sp : soup) (title : option str) (text : str) :
  extract_malayalam_text (Soup [extract_malayalam_text sp] title text) =
  extract_malayalam_text sp.
Proof.
  set (r := extract_malayalam_text sp).
  pose proof (extracted_ends sp) as Hends. fold r in Hends.
  rewrite extract_malayalam_text_body. unfold malayalam_body. cbn [soup_p List.filter].
  destruct r as [|c r'] eqn:Hr; [done|].
  destruct Hends as (a & rest & z & front & Ha & Hz & Hma & Hmz); [done|].
  assert (has_malayalam (c :: r') = true) as ->.
  { apply has_malayalam_true. injection Ha as -> _. exists a.
    split; [by left|by apply is_malayalam_spec]. }
  cbn [map str_join].
  rewrite squash_runs_clean.
  - change (trim_spaces ?s) with (strip_both (is_chr " ") s).
    rewrite Ha. apply (strip_both_fixed _ a z rest front); [by rewrite <- Ha|..].
    + destruct (is_chr " " a) eqn:Hsp; [|done]. by rewrite (space_not_malayalam a Hsp) in Hma.
    + destruct (is_chr " " z) eqn:Hsp; [|done]. by rewrite (space_not_malayalam z Hsp) in Hmz.
  - intros x Hx. rewrite <- Hr in Hx. subst r.
    apply extract_malayalam_text_alphabet in Hx as [->|Hx]; [done|].
    unfold not_space_malayalam. apply is_malayalam_spec in Hx. rewrite Hx.
    by rewrite orb_true_r.
Qed.

Lemma extract_malayalam_text_ends_witness :
  exists a rest z front,
    extract_malayalam_text sample_page = a :: rest /\
    extract_malayalam_text sample_page = front ++ [z] /\
    is_malayalam a = true /\ is_malayalam z = true.
Proof.
  apply (proj2 (extract_malayalam_text_ends sample_page)). vm_compute. discriminate.
Defined.

(** ** The summary of a page with Malayalam text *)

Section Summary.
Context {S : Services}.

(** When some paragraph has a Malayalam character, the summary section
    calls the translation service once, with the extracted text; the
    summary is the answer of the service, and the extracted text itself
    when the service raises.  The sentinel is not used. *)
Theorem summary_of_malayalam_page (sp : soup) (s : state) :
  (exists t, In t (soup_p sp) /\ has_malayalam t = true) ->
  let text := extract_malayalam_text sp in
  let answer := GoogleTranslator_translate text (st_world s) in
  summary_of sp s =
    (Ok (match answer.1 with Ok r => r | Raise _ => text end),
     State answer.2 (st_calls s ++ [Call_translate text])).
Proof.
  intros (t & Ht & Hm) text answer.
  assert (List.filter has_malayalam (soup_p sp) <> []) as Hkept.
  { intros Hk. assert (In t (List.filter has_malayalam (soup_p sp))) as Hin.
    { apply filter_In. by split. }
    rewrite Hk in Hin. destruct Hin. }
  destruct (malayalam_body_ends (soup_p sp) Hkept) as (a & rest & z & front & Ha & _ & Hma & _).
  rewrite <- extract_malayalam_text_body in Ha. fold text in Ha.
  unfold summary_of. fold text.
  assert (has_malayalam text = true) as Hmt.
  { apply has_malayalam_true. exists a. rewrite Ha. split; [by left|by apply is_malayalam_spec]. }
  unfold translate_text_if_needed. rewrite Hmt, Ha. cbn [truthy andb]. rewrite <- Ha.
  unfold try_except, invoke, ret. subst answer.
  by destruct (GoogleTranslator_translate text (st_world s)) as [[r|e] w].
Qed.

End Summary.

Lemma summary_of_malayalam_page_witness :
  (@summary_of translating sample_page (@State translating tt [])).1 = Ok (utf8 "Kerala India") /\
  (@summary_of offline sample_page (@State offline tt [])).1 = Ok (utf8 "കേരളം ഇന്ത്യ").
Proof.
  split.
  - rewrite (@summary_of_malayalam_page translating sample_page); [reflexivity|].
    exists (utf8 "ഇന്ത്യ, 2024."). split; [right; right; by left|reflexivity].
  - rewrite (@summary_of_malayalam_page offline sample_page); [reflexivity|].
    exists (utf8 "ഇന്ത്യ, 2024."). split; [right; right; by left|reflexivity].
Defined.

(** ** The title before translation *)

Section Title.
Context {S : Services}.

(** The title that goes to translation has no whitespace at either end:
    it is the sentinel or a stripped text, and stripping it again changes
    nothing. *)
Theorem structured_title_stripped (url : str) (sp : soup) (s s' : state)
    (chosen : str) (art : option article) :
  structured_title url sp s = (Ok (chosen, art), s') ->
  str_strip chosen = chosen /\
  (chosen = [] \/
   exists a rest z front,
     chosen = a :: rest /\ chosen = front ++ [z] /\
     is_space a = false /\ is_space z = false).
Proof.
  intros Hst.
  assert (chosen = utf8 "No Title Found" \/ exists t, chosen = str_strip t) as Hchosen.
  { unfold structured_title, bind, observe, ret in Hst.
    destruct (newspaper_article url (st_world s)) as [[e|e a|a] w];
      injection Hst as <- _ _.
    - destruct (soup_title sp) as [t|]; [right; by exists t|by left].
    - destruct (soup_title sp) as [t|]; [right; by exists t|by left].
    - destruct (truthy (art_title a)); [right; by eexists|by left]. }
  destruct Hchosen as [->|[t ->]].
  - split; [reflexivity|]. right.
    exists (chr "N"), (utf8 "o Title Found"), (chr "d"), (utf8 "No Title Foun").
    split_and!; reflexivity.
  - change (str_strip ?x) with (strip_both is_space x).
    split; [apply strip_both_idempotent|apply strip_both_ends].
Qed.

End Title.

Lemma structured_title_stripped_witness :
  str_strip (utf8 "Kerala budget 2024") = utf8 "Kerala budget 2024".
Proof.
  refine (proj1 (@structured_title_stripped titled offline_url titled_page
                   (@State titled tt []) _ _ _ _)).
  reflexivity.
Defined.

(** ** The publisher of a Basic Latin domain *)

Lemma ascii_lower_ascii (c : char) : is_ascii c = true -> is_ascii (ascii_lower c) = true.
Proof.
  unfold is_ascii, ascii_lower. intros Hc. apply N.ltb_lt in Hc.
  destruct ((0x41 <=? c) && (c <=? 0x5A)) eqn:Hu; [|by apply N.ltb_lt].
  apply andb_true_iff in Hu as [_ Hu]. apply N.leb_le in Hu. apply N.ltb_lt. lia.
Qed.

Lemma ascii_lower_idempotent (c : char) : ascii_lower (ascii_lower c) = ascii_lower c.
Proof.
  unfold ascii_lower.
  destruct ((0x41 <=? c) && (c <=? 0x5A)) eqn:Hu; [|by rewrite Hu].
  apply andb_true_iff in Hu as [Hlo Hhi]. apply N.leb_le in Hlo, Hhi.
  assert ((0x41 <=? c + 0x20) && (c + 0x20 <=? 0x5A) = false) as ->; [|done].
  apply andb_false_iff. right. apply N.leb_gt. lia.
Qed.

Section Publisher.
Context {P : Platform} {S : Services}.

Lemma str_lower_ascii (d : str) :
  forallb is_ascii d = true ->
  str_lower d = map ascii_lower d /\ forallb is_ascii (map ascii_lower d) = true.
Proof.
  intros Hd. unfold str_lower. rewrite Hd. split; [done|].
  induction d as [|c d IH]; [done|]. cbn [forallb map] in *.
  apply andb_true_iff in Hd as [Hc Hd]. by rewrite (ascii_lower_ascii c Hc), IH.
Qed.

(** For a domain token of Basic Latin characters the publisher depends on
    the token with its capitals lowered only: it is the name the map has
    for that, and otherwise the token with its first letter in upper case
    and the others in lower case, whatever the case in the URL. *)
Theorem media_source_ignores_case (url : str) (s : state) (domain : str) :
  (tldextract_domain url (st_world s)).1 = Ok domain ->
  forallb is_ascii domain = true ->
  (media_source_of url s).1 =
    Ok (match MEDIA_MAP !! map ascii_lower domain with
        | Some name => name
        | None =>
            match domain with
            | [] => []
            | c :: rest => ascii_upper (ascii_lower c) :: map ascii_lower rest
            end
        end).
Proof.
  intros Hd Hascii. rewrite media_source_run, Hd. cbn [fst]. f_equal.
  destruct (str_lower_ascii domain Hascii) as [Hlow Hlowascii].
  unfold publisher. rewrite Hlow.
  destruct (MEDIA_MAP !! map ascii_lower domain); [done|].
  unfold str_capitalize. rewrite Hlowascii.
  destruct domain as [|c rest]; [done|]. cbn [map]. f_equal.
  rewrite map_map. apply map_ext. intros x. apply ascii_lower_idempotent.
Qed.

End Publisher.

Lemma media_source_ignores_case_witness :
  (@media_source_of reference_platform translating offline_url (@State translating tt [])).1 =
    Ok (utf8 "Bbc").
Proof.
  apply (@media_source_ignores_case reference_platform translating offline_url
           (@State translating tt []) (utf8 "BBC")); reflexivity.
Defined.

(** ** Dates read from Malayalam text *)

Lemma length_decimal_digits (w : nat) (n : N) : length (decimal_digits w n) = w.
Proof.
  revert n. induction w as [|w IH]; intros n; [done|].
  cbn [decimal_digits]. rewrite length_app, IH. cbn. lia.
Qed.

Lemma month_names_malayalam :
  forallb (fun p => has_malayalam (fst p)) MALAYALAM_MONTHS = true.
Proof. reflexivity. Qed.

Section MalayalamDateValue.
Context {P : Platform}.

Lemma strptime_valid (data fmt : str) (d : date) :
  strptime data fmt = Some d -> valid_date d = true.
Proof.
  unfold strptime. destruct (format_directives false fmt) as [ds|]; [|done].
  destruct (match_directives ds _ data) as [[d0 [|? ?]]|]; try done.
  destruct (valid_date d0) eqn:Hv; [|done]. by intros [= <-].
Qed.

Lemma extract_date_from_Some_inv (months : list (str * str)) (text r : str) :
  extract_date_from months text = Some r ->
  exists ml eng,
    In (ml, eng) months /\ str_in ml text = true /\
    parse_fixed (str_replace ml eng text) date_formats = Some r.
Proof.
  induction months as [|[ml eng] months IH]; [done|]. cbn [extract_date_from].
  destruct (str_in ml text) eqn:Hin.
  - destruct (parse_fixed _ date_formats) as [r0|] eqn:Hp.
    + intros [= <-]. exists ml, eng. split_and!; [by left|done|done].
    + intros Hr. destruct (IH Hr) as (ml' & eng' & ? & ? & ?).
      exists ml', eng'. split_and!; [by right|done|done].
  - intros Hr. destruct (IH Hr) as (ml' & eng' & ? & ? & ?).
    exists ml', eng'. split_and!; [by right|done|done].
Qed.

(** A date read from Malayalam text is a date of the calendar: the month
    is 1 to 12, the day is one the month has in that year, and the year is
    1 to 9999; from the year 1000 on the text has ten characters. *)
Theorem malayalam_date_is_calendar_date (text r : str) :
  extract_malayalam_date text = Some r ->
  exists d,
    r = strftime d (utf8 "%Y-%m-%d") /\
    1 <= year d <= 9999 /\ 1 <= month d <= 12 /\
    1 <= day d <= days_in_month (year d) (month d) /\
    day d <= 31 /\
    (1000 <= year d ->
     r = decimal_digits 4 (year d) ++ [chr "-"] ++ decimal_digits 2 (month d) ++
         [chr "-"] ++ decimal_digits 2 (day d) /\
     length r = 10%nat).
Proof.
  intros Hr. apply extract_date_from_Some_inv in Hr as (ml & eng & _ & _ & Hp).
  apply parse_fixed_Some_inv in Hp as (fmt & d & _ & Hd & ->).
  apply strptime_valid in Hd. unfold valid_date in Hd.
  rewrite !andb_true_iff, !N.leb_le in Hd.
  destruct Hd as [[[[[Hy1 Hy2] Hm1] Hm2] Hd1] Hd2].
  exists d. split_and!; try done.
  - etrans; [exact Hd2|]. unfold days_in_month.
    destruct (month d =? 2); [by destruct (is_leap (year d))|].
    by destruct ((month d =? 4) || (month d =? 6) || (month d =? 9) || (month d =? 11)).
  - intros Hy. rewrite strftime_ymd. unfold year_str.
    apply N.leb_le in Hy, Hy2. rewrite Hy, Hy2. cbn [andb]. split; [done|].
    repeat first [rewrite length_app | rewrite length_decimal_digits | progress cbn [length]].
    done.
Qed.

(** Text without a Malayalam character, the empty text among it, gives no
    date. *)
Theorem malayalam_date_needs_malayalam (text : str) :
  (forall c, In c text -> ~ (0x0D00 <= c <= 0x0D7F)) ->
  extract_malayalam_date text = None.
Proof.
  intros Hno. apply has_malayalam_false in Hno.
  unfold extract_malayalam_date. apply extract_date_from_none.
  intros ml eng Hin Hocc.
  apply str_in_spec in Hocc as (pre & post & ->).
  rewrite !has_malayalam_app in Hno.
  pose proof month_names_malayalam as Hnames.
  rewrite forallb_forall in Hnames. specialize (Hnames (ml, eng) Hin). cbn [fst] in Hnames.
  rewrite Hnames, orb_true_r in Hno. done.
Qed.

End MalayalamDateValue.

Lemma malayalam_date_is_calendar_date_witness :
  exists d,
    utf8 "2023-01-12" = @strftime reference_platform d (utf8 "%Y-%m-%d") /\
    1 <= year d <= 9999 /\ 1 <= month d <= 12 /\
    1 <= day d <= days_in_month (year d) (month d) /\
    day d <= 31 /\
    (1000 <= year d ->
     utf8 "2023-01-12" =
       decimal_digits 4 (year d) ++ [chr "-"] ++ decimal_digits 2 (month d) ++
       [chr "-"] ++ decimal_digits 2 (day d) /\
     length (utf8 "2023-01-12") = 10%nat).
Proof.
  apply (@malayalam_date_is_calendar_date reference_platform (utf8 "12-ജനുവരി-2023")).
  reflexivity.
Defined.

Lemma malayalam_date_needs_malayalam_witness :
  @extract_malayalam_date reference_platform (utf8 "7 December 2024") = None.
Proof.
  apply (@malayalam_date_needs_malayalam reference_platform).
  intros c Hin. vm_compute in Hin.
  repeat (destruct Hin as [<-|Hin]; [vm_compute; intros [Hlo _]; by apply Hlo|]).
  destruct Hin.
Defined.

(** ** Reading back a date that was written in Malayalam *)

Example written_date_padded :
  written_date Comma true (Date 2024 12 7) (utf8 "ഡിസംബർ") = utf8 "07 ഡിസംബർ, 2024".
Proof. reflexivity. Qed.

Lemma decimal_value_digit {P : Platform} (e : N) :
  decimal_value (0x30 + (e mod 10)) = Some (e mod 10).
Proof.
  pose proof (N.mod_upper_bound e 10 ltac:(done)) as Hlt.
  generalize dependent (e mod 10). intros r Hlt.
  unfold decimal_value, is_ascii, ascii_decimal.
  assert ((0x30 + r <? 0x80) = true) as -> by (apply N.ltb_lt; lia).
  assert (((0x30 <=? 0x30 + r) && (0x30 + r <=? 0x39)) = true) as ->.
  { apply andb_true_iff. split; apply N.leb_le; lia. }
  f_equal. lia.
Qed.

Lemma digit_not_space (e : N) : is_space (0x30 + (e mod 10)) = false.
Proof.
  pose proof (N.mod_upper_bound e 10 ltac:(done)) as Hlt.
  generalize dependent (e mod 10). intros r Hlt.
  apply not_true_is_false. unfold is_space.
  rewrite !orb_true_iff, !andb_true_iff, !N.leb_le, !N.eqb_eq. lia.
Qed.

Lemma digit_not_malayalam (e : N) : is_malayalam (0x30 + (e mod 10)) = false.
Proof.
  pose proof (N.mod_upper_bound e 10 ltac:(done)) as Hlt.
  generalize dependent (e mod 10). intros r Hlt.
  apply not_true_is_false. rewrite is_malayalam_spec. lia.
Qed.

Lemma decimal_digits_not_malayalam (w : nat) (n : N) :
  has_malayalam (decimal_digits w n) = false.
Proof.
  revert n. induction w as [|w IH]; intros n; [done|]. cbn [decimal_digits].
  rewrite has_malayalam_app, IH, has_malayalam_existsb. cbn [existsb].
  by rewrite digit_not_malayalam.
Qed.

Lemma decimal_digits_4 (y : N) :
  decimal_digits 4 y =
  [0x30 + ((y / 10 / 10 / 10) mod 10); 0x30 + ((y / 10 / 10) mod 10);
   0x30 + ((y / 10) mod 10); 0x30 + (y mod 10)].
Proof. reflexivity. Qed.

Lemma match_Y_decimal {P : Platform} (y : N) :
  y <= 9999 -> match_Y (decimal_digits 4 y) = Some (y, []).
Proof.
  intros Hy. rewrite decimal_digits_4. unfold match_Y.
  rewrite !decimal_value_digit. do 2 f_equal.
  pose proof (N.div_mod y 10 ltac:(done)).
  pose proof (N.div_mod (y / 10) 10 ltac:(done)).
  pose proof (N.div_mod (y / 10 / 10) 10 ltac:(done)).
  pose proof (N.div_mod (y / 10 / 10 / 10) 10 ltac:(done)).
  pose proof (N.mod_upper_bound y 10 ltac:(done)).
  pose proof (N.mod_upper_bound (y / 10) 10 ltac:(done)).
  pose proof (N.mod_upper_bound (y / 10 / 10) 10 ltac:(done)).
  pose proof (N.mod_upper_bound (y / 10 / 10 / 10) 10 ltac:(done)).
  generalize dependent ((y / 10 / 10 / 10) mod 10).
  generalize dependent (y / 10 / 10 / 10 / 10).
  generalize dependent ((y / 10 / 10) mod 10).
  generalize dependent (y / 10 / 10 / 10).
  generalize dependent ((y / 10) mod 10).
  generalize dependent (y / 10 / 10).
  generalize dependent (y mod 10).
  generalize dependent (y / 10).
  intros.
  lia.
Qed.

Lemma match_d_day_text {P : Platform} (padded : bool) (n : N) (sep : char) (rest : str) :
  1 <= n <= 31 -> sep = chr " " \/ sep = chr "-" ->
  match_d (day_text padded n ++ sep :: rest) = Some (n, sep :: rest).
Proof.
  intros Hn Hsep.
  destruct n as [|p]; [lia|].
  do 5 (try destruct p as [p|p|]); try lia;
    destruct padded, Hsep as [-> | ->]; reflexivity.
Qed.

Lemma day_text_not_malayalam (padded : bool) (n : N) :
  has_malayalam (day_text padded n) = false.
Proof. unfold day_text. destruct (padded || _); apply decimal_digits_not_malayalam. Qed.

(** *** A Malayalam word between texts without Malayalam *)

Lemma malayalam_differs (a c : char) :
  is_malayalam a = true -> is_malayalam c = false -> (a =? c) = false.
Proof. intros Ha Hc. apply N.eqb_neq. intros ->. congruence. Qed.

Lemma has_malayalam_cons (c : char) (s : str) :
  has_malayalam (c :: s) = is_malayalam c || has_malayalam s.
Proof. by rewrite !has_malayalam_existsb. Qed.

(** A prefix test of a Malayalam word does not see past the Malayalam. *)
Lemma is_prefix_island (w y b : str) :
  forallb is_malayalam w = true -> has_malayalam b = false ->
  is_prefix w (y ++ b) = is_prefix w y.
Proof.
  intros Hw Hb. revert w Hw. induction y as [|c y IH]; intros w Hw.
  - cbn [app]. destruct w as [|a w]; [by destruct b|].
    cbn [forallb] in Hw. apply andb_true_iff in Hw as [Ha _].
    destruct b as [|c b]; [done|]. cbn [is_prefix].
    rewrite has_malayalam_cons in Hb. apply orb_false_iff in Hb as [Hc _].
    by rewrite (malayalam_differs a c Ha Hc).
  - destruct w as [|a w]; [done|]. cbn [app is_prefix].
    cbn [forallb] in Hw. apply andb_true_iff in Hw as [_ Hw]. by rewrite IH.
Qed.

Lemma str_in_island (w a y b : str) :
  truthy w = true -> forallb is_malayalam w = true ->
  has_malayalam a = false -> has_malayalam b = false ->
  str_in w (a ++ y ++ b) = str_in w y.
Proof.
  intros Hne Hw Ha Hb.
  assert (forall t, has_malayalam t = false -> str_in w t = false) as Hnone.
  { intros t Ht. induction t as [|c t IH].
    - by destruct w.
    - rewrite has_malayalam_cons in Ht. apply orb_false_iff in Ht as [Hc Ht].
      cbn [str_in]. rewrite (IH Ht), orb_false_r.
      destruct w as [|x w]; [done|]. cbn [is_prefix].
      cbn [forallb] in Hw. apply andb_true_iff in Hw as [Hx _].
      by rewrite (malayalam_differs x c Hx Hc). }
  induction a as [|c a IH].
  - cbn [app]. induction y as [|c y IH].
    + cbn [app]. rewrite (Hnone b Hb). by destruct w.
    + cbn [app str_in]. rewrite IH.
      change (c :: y ++ b) with ((c :: y) ++ b). by rewrite is_prefix_island.
  - rewrite has_malayalam_cons in Ha. apply orb_false_iff in Ha as [Hc Ha].
    cbn [app str_in]. rewrite (IH Ha).
    destruct w as [|x w]; [done|]. cbn [is_prefix].
    cbn [forallb] in Hw. apply andb_true_iff in Hw as [Hx _].
    by rewrite (malayalam_differs x c Hx Hc).
Qed.

Lemma replace_go_skip (old new y rest : str) :
  replace_go old new (length y) (y ++ rest) = replace_go old new 0 rest.
Proof. induction y as [|c y IH]; [done|]. exact IH. Qed.

Lemma replace_go_foreign (old new t rest : str) :
  truthy old = true -> forallb is_malayalam old = true -> has_malayalam t = false ->
  replace_go old new 0 (t ++ rest) = t ++ replace_go old new 0 rest.
Proof.
  intros Hne Hold Ht. induction t as [|c t IH]; [done|].
  rewrite has_malayalam_cons in Ht. apply orb_false_iff in Ht as [Hc Ht].
  cbn [app replace_go].
  destruct old as [|x old']; [done|]. cbn [is_prefix].
  cbn [forallb] in Hold. apply andb_true_iff in Hold as [Hx _].
  rewrite (malayalam_differs x c Hx Hc). cbn [andb]. by rewrite (IH Ht).
Qed.

Lemma replace_go_at (x : char) (old' new b : str) :
  replace_go (x :: old') new 0 ((x :: old') ++ b) =
  new ++ replace_go (x :: old') new 0 b.
Proof.
  assert (is_prefix (x :: old') (x :: old' ++ b) = true) as Hp.
  { apply is_prefix_spec. by exists b. }
  cbn [app]. cbn [replace_go]. rewrite Hp. cbn [length Nat.pred].
  by rewrite replace_go_skip.
Qed.

(** Replacing a Malayalam word that stands between texts without
    Malayalam changes that word and nothing else. *)
Lemma str_replace_island (old new a b : str) :
  truthy old = true -> forallb is_malayalam old = true ->
  has_malayalam a = false -> has_malayalam b = false ->
  str_replace old new (a ++ old ++ b) = a ++ new ++ b.
Proof.
  intros Hne Hold Ha Hb. unfold str_replace.
  destruct old as [|x old']; [done|].
  rewrite (replace_go_foreign _ new a _ Hne Hold Ha). f_equal.
  rewrite replace_go_at. f_equal.
  pose proof (replace_go_foreign (x :: old') new b [] Hne Hold Hb) as Hrest.
  rewrite !app_nil_r in Hrest. exact Hrest.
Qed.

(** *** The three formats on the three layouts *)

Section Parse.
Context {P : Platform}.

Lemma md_d (ds : list directive) (acc : date) (s r : str) (v : N) :
  match_d s = Some (v, r) ->
  match_directives (D_d :: ds) acc s =
  match_directives ds (Date (year acc) (month acc) v) r.
Proof. intros Hs. cbn [match_directives]. by rewrite Hs. Qed.

Lemma md_B (ds : list directive) (acc : date) (s r : str) (v : N) :
  match_B s = Some (v, r) ->
  match_directives (D_B :: ds) acc s =
  match_directives ds (Date (year acc) v (day acc)) r.
Proof. intros Hs. cbn [match_directives]. by rewrite Hs. Qed.

Lemma md_Y (ds : list directive) (acc : date) (s r : str) (v : N) :
  match_Y s = Some (v, r) ->
  match_directives (D_Y :: ds) acc s =
  match_directives ds (Date v (month acc) (day acc)) r.
Proof. intros Hs. cbn [match_directives]. by rewrite Hs. Qed.

Lemma md_space (ds : list directive) (acc : date) (c : char) (r : str) :
  is_space c = true ->
  match_directives (D_space :: ds) acc (c :: r) =
  match_directives ds acc (drop_while is_space r).
Proof. intros Hc. cbn [match_directives]. by rewrite Hc. Qed.

Lemma md_space_fail (ds : list directive) (acc : date) (c : char) (r : str) :
  is_space c = false -> match_directives (D_space :: ds) acc (c :: r) = None.
Proof. intros Hc. cbn [match_directives]. by rewrite Hc. Qed.

Lemma md_lit (ds : list directive) (acc : date) (c : char) (r : str) :
  match_directives (D_lit c :: ds) acc (c :: r) = match_directives ds acc r.
Proof. cbn [match_directives]. by rewrite N.eqb_refl. Qed.

Lemma md_lit_fail (ds : list directive) (acc : date) (c x : char) (r : str) :
  (x =? c) = false -> match_directives (D_lit c :: ds) acc (x :: r) = None.
Proof. intros Hc. cbn [match_directives]. by rewrite Hc. Qed.

Lemma strptime_directives (data fmt : str) (ds : list directive) :
  format_directives false fmt = Some ds ->
  strptime data fmt =
  match match_directives ds (Date 1900 1 1) data with
  | Some (d, []) => if valid_date d then Some d else None
  | _ => None
  end.
Proof. intros Hf. unfold strptime. by rewrite Hf. Qed.

Variables (D Y eng : str) (dy mon yr : N).
Hypothesis HD : forall sep rest,
  sep = chr " " \/ sep = chr "-" -> match_d (D ++ sep :: rest) = Some (dy, sep :: rest).
Hypothesis HB : forall rest, match_B (eng ++ rest) = Some (mon, rest).
Hypothesis HBs : forall rest, drop_while is_space (eng ++ rest) = eng ++ rest.
Hypothesis HY : match_Y Y = Some (yr, []).
Hypothesis HYs : drop_while is_space Y = Y.
Hypothesis Hvalid : valid_date (Date yr mon dy) = true.

Lemma parse_spaced :
  parse_fixed (D ++ chr " " :: eng ++ chr " " :: Y) date_formats =
  Some (strftime (Date yr mon dy) (utf8 "%Y-%m-%d")).
Proof using All.
  unfold date_formats. cbn [parse_fixed].
  rewrite (strptime_directives _ (utf8 "%d %B %Y") [D_d; D_space; D_B; D_space; D_Y])
    by reflexivity.
  erewrite md_d by (apply HD; by left).
  rewrite md_space by reflexivity. rewrite HBs.
  erewrite md_B by apply HB.
  rewrite md_space by reflexivity. rewrite HYs.
  erewrite md_Y by exact HY.
  cbn [match_directives year month day]. by rewrite Hvalid.
Qed.

Lemma parse_hyphened :
  parse_fixed (D ++ chr "-" :: eng ++ chr "-" :: Y) date_formats =
  Some (strftime (Date yr mon dy) (utf8 "%Y-%m-%d")).
Proof using All.
  unfold date_formats. cbn [parse_fixed].
  rewrite (strptime_directives _ (utf8 "%d %B %Y") [D_d; D_space; D_B; D_space; D_Y])
    by reflexivity.
  erewrite md_d by (apply HD; by right).
  rewrite md_space_fail by reflexivity.
  rewrite (strptime_directives _ (utf8 "%d-%B-%Y")
             [D_d; D_lit (chr "-"); D_B; D_lit (chr "-"); D_Y]) by reflexivity.
  erewrite md_d by (apply HD; by right).
  rewrite md_lit. erewrite md_B by apply HB. rewrite md_lit.
  erewrite md_Y by exact HY.
  cbn [match_directives year month day]. by rewrite Hvalid.
Qed.

Lemma parse_comma :
  parse_fixed (D ++ chr " " :: eng ++ chr "," :: chr " " :: Y) date_formats =
  Some (strftime (Date yr mon dy) (utf8 "%Y-%m-%d")).
Proof using All.
  unfold date_formats. cbn [parse_fixed].
  rewrite (strptime_directives _ (utf8 "%d %B %Y") [D_d; D_space; D_B; D_space; D_Y])
    by reflexivity.
  erewrite md_d by (apply HD; by left).
  rewrite md_space by reflexivity. rewrite HBs.
  erewrite md_B by apply HB.
  rewrite md_space_fail by reflexivity.
  rewrite (strptime_directives _ (utf8 "%d-%B-%Y")
             [D_d; D_lit (chr "-"); D_B; D_lit (chr "-"); D_Y]) by reflexivity.
  erewrite md_d by (apply HD; by left).
  rewrite md_lit_fail by reflexivity.
  rewrite (strptime_directives _ (utf8 "%d %B, %Y")
             [D_d; D_space; D_B; D_lit (chr ","); D_space; D_Y]) by reflexivity.
  erewrite md_d by (apply HD; by left).
  rewrite md_space by reflexivity. rewrite HBs.
  erewrite md_B by apply HB.
  rewrite md_lit. rewrite md_space by reflexivity. rewrite HYs.
  erewrite md_Y by exact HY.
  cbn [match_directives year month day]. by rewrite Hvalid.
Qed.

End Parse.

(** *** The month table *)

Lemma months_all_malayalam :
  forallb (fun p => truthy (fst p) && forallb is_malayalam (fst p)) MALAYALAM_MONTHS = true.
Proof. reflexivity. Qed.

Lemma earlier_months_table :
  forallb
    (fun i =>
       forallb
         (fun j =>
            (i <=? j)%nat ||
            negb (str_in (nth j (map fst MALAYALAM_MONTHS) [])
                    (nth i (map fst MALAYALAM_MONTHS) [])))
         (seq 0 13))
    (seq 0 13) = true.
Proof. vm_compute. reflexivity. Qed.

Lemma month_lookup (i : nat) (ml eng : str) :
  MALAYALAM_MONTHS !! i = Some (ml, eng) ->
  nth i (map fst MALAYALAM_MONTHS) [] = ml /\ In i (seq 0 13).
Proof.
  intros Hi. split.
  - apply nth_lookup_Some with (d := []). by rewrite list_lookup_fmap, Hi.
  - apply in_seq. apply lookup_lt_Some in Hi. change (length MALAYALAM_MONTHS) with 13%nat in Hi.
    lia.
Qed.

(** No Malayalam name of the table occurs in a name that comes after it. *)
Lemma earlier_month_absent (i j : nat) (ml eng ml' eng' : str) :
  MALAYALAM_MONTHS !! i = Some (ml, eng) ->
  MALAYALAM_MONTHS !! j = Some (ml', eng') ->
  (j < i)%nat -> str_in ml' ml = false.
Proof.
  intros Hi Hj Hlt.
  apply month_lookup in Hi as [<- Hi], Hj as [<- Hj].
  pose proof earlier_months_table as Htable.
  rewrite forallb_forall in Htable. specialize (Htable i Hi).
  rewrite forallb_forall in Htable. specialize (Htable j Hj).
  apply orb_true_iff in Htable as [Hle|Hno].
  - apply Nat.leb_le in Hle. lia.
  - by apply negb_true_iff in Hno.
Qed.

Lemma english_name_matches (i : nat) (ml eng : str) (m : N) :
  MALAYALAM_MONTHS !! i = Some (ml, eng) ->
  match_B eng = Some (m, []) ->
  forall rest,
    match_B (eng ++ rest) = Some (m, rest) /\
    drop_while is_space (eng ++ rest) = eng ++ rest.
Proof.
  intros Hi Hm rest.
  assert (In (ml, eng) MALAYALAM_MONTHS) as Hin.
  { apply list_elem_of_In, list_elem_of_lookup. by exists i. }
  clear Hi. vm_compute in Hin.
  repeat (destruct Hin as [Heq|Hin];
          [injection Heq as <- <-; vm_compute in Hm; injection Hm as <-;
           split; vm_compute; reflexivity|]).
  destruct Hin.
Qed.

Section RoundTrip.
Context {P : Platform}.

(** A date of the calendar, written in one of the three layouts with a
    Malayalam month name of the table, is read back: what is extracted is
    that date in the form %Y-%m-%d. *)
Theorem malayalam_date_round_trip (l : layout) (padded : bool) (d : date)
    (i : nat) (ml eng : str) :
  valid_date d = true ->
  MALAYALAM_MONTHS !! i = Some (ml, eng) ->
  match_B eng = Some (month d, []) ->
  extract_malayalam_date (written_date l padded d ml) =
  Some (strftime d (utf8 "%Y-%m-%d")).
Proof.
  intros Hvalid Hi Hname. destruct d as [yr mon dy]. cbn [year month day] in *.
  pose proof Hvalid as Hv. unfold valid_date in Hv. cbn [year month day] in Hv.
  rewrite !andb_true_iff, !N.leb_le in Hv.
  destruct Hv as [[[[[Hy1 Hy2] Hm1] Hm2] Hd1] Hd2].
  assert (dy <= 31) as Hd31.
  { etrans; [exact Hd2|]. unfold days_in_month.
    destruct (mon =? 2); [by destruct (is_leap yr)|].
    by destruct ((mon =? 4) || (mon =? 6) || (mon =? 9) || (mon =? 11)). }
  assert (truthy ml = true /\ forallb is_malayalam ml = true) as [Hne Hml].
  { pose proof months_all_malayalam as Hall. rewrite forallb_forall in Hall.
    apply andb_true_iff. apply (Hall (ml, eng)).
    apply list_elem_of_In, list_elem_of_lookup. by exists i. }
  set (a := day_text padded dy ++ before_month l).
  set (b := after_month l ++ decimal_digits 4 yr).
  assert (written_date l padded (Date yr mon dy) ml = a ++ ml ++ b) as Htext.
  { unfold written_date, a, b. cbn [year month day]. by rewrite <- !app_assoc. }
  assert (has_malayalam a = false) as Ha.
  { unfold a. rewrite has_malayalam_app, day_text_not_malayalam. by destruct l. }
  assert (has_malayalam b = false) as Hb.
  { unfold b. rewrite has_malayalam_app, decimal_digits_not_malayalam. by destruct l. }
  rewrite Htext. unfold extract_malayalam_date.
  apply (extract_date_from_first _ _ i ml eng); [done| | |].
  - apply str_in_spec. by exists a, b.
  - rewrite (str_replace_island ml eng a b Hne Hml Ha Hb).
    assert (forall sep rest, sep = chr " " \/ sep = chr "-" ->
              match_d (day_text padded dy ++ sep :: rest) = Some (dy, sep :: rest)) as HD.
    { intros sep rest Hsep. apply match_d_day_text; [lia|done]. }
    pose proof (fun rest => proj1 (english_name_matches i ml eng mon Hi Hname rest)) as HB.
    pose proof (fun rest => proj2 (english_name_matches i ml eng mon Hi Hname rest)) as HBs.
    pose proof (match_Y_decimal yr Hy2) as HY.
    assert (drop_while is_space (decimal_digits 4 yr) = decimal_digits 4 yr) as HYs.
    { rewrite decimal_digits_4. cbn [drop_while]. by rewrite digit_not_space. }
    unfold a, b. rewrite <- !app_assoc. destruct l.
    + apply (parse_spaced _ _ _ _ _ _ HD HB HBs HY HYs Hvalid).
    + apply (parse_hyphened _ _ _ _ _ _ HD HB HBs HY HYs Hvalid).
    + apply (parse_comma _ _ _ _ _ _ HD HB HBs HY HYs Hvalid).
  - intros i' ml' eng' Hlt Hi' Hocc.
    assert (truthy ml' = true /\ forallb is_malayalam ml' = true) as [Hne' Hml'].
    { pose proof months_all_malayalam as Hall. rewrite forallb_forall in Hall.
      apply andb_true_iff. apply (Hall (ml', eng')).
      apply list_elem_of_In, list_elem_of_lookup. by exists i'. }
    rewrite (str_in_island ml' a ml b Hne' Hml' Ha Hb) in Hocc.
    rewrite (earlier_month_absent i i' ml eng ml' eng' Hi Hi' Hlt) in Hocc. done.
Qed.

End RoundTrip.

Lemma malayalam_date_round_trip_witness :
  @extract_malayalam_date reference_platform (utf8 "29 ഫെബ്രുവരി, 2024") =
  Some (utf8 "2024-02-29").
Proof.
  apply (@malayalam_date_round_trip reference_platform Comma false (Date 2024 2 29) 1
           (utf8 "ഫെബ്രുവരി") (utf8 "February")); reflexivity.
Defined.

(** ** Translation of text with Malayalam *)

Section TranslationOfMalayalam.
Context {S : Services}.

(** Text with a character in U+0D00-U+0D7F is sent to the translation
    service once, as it is; the result is the answer of the service, and
    the text itself when the service raises.  The exception is not
    propagated, and the world is left as the service left it. *)
Theorem translate_of_malayalam_text (text : str) (s : state) :
  (exists c, In c text /\ 0x0D00 <= c <= 0x0D7F) ->
  let answer := GoogleTranslator_translate text (st_world s) in
  translate_text_if_needed text s =
    (Ok (match answer.1 with Ok r => r | Raise _ => text end),
     State answer.2 (st_calls s ++ [Call_translate text])).
Proof.
  intros Hc answer. pose proof Hc as (c & Hin & _).
  apply has_malayalam_true in Hc.
  unfold translate_text_if_needed. rewrite Hc.
  destruct text as [|c0 text]; [destruct Hin|]. cbn [truthy andb].
  unfold try_except, invoke, ret. subst answer.
  by destruct (GoogleTranslator_translate (c0 :: text) (st_world s)) as [[r|e] w].
Qed.

End TranslationOfMalayalam.

Lemma translate_of_malayalam_text_witness :
  @translate_text_if_needed translating (utf8 "കേരളം") (@State translating tt []) =
    (Ok (utf8 "Kerala India"), @State translating tt [Call_translate (utf8 "കേരളം")]) /\
  @translate_text_if_needed offline (utf8 "കേരളം") (@State offline tt []) =
    (Ok (utf8 "കേരളം"), @State offline tt [Call_translate (utf8 "കേരളം")]).
Proof.
  split.
  - rewrite (@translate_of_malayalam_text translating); [reflexivity|].
    exists 0x0D15. split; [by left|lia].
  - rewrite (@translate_of_malayalam_text offline); [reflexivity|].
    exists 0x0D15. split; [by left|lia].
Defined.
